(** * Financial Document Anomaly Detector

    A shallow embedding of [anomaly.py] and the properties of its
    specification.

    Conventions of the embedding.
    - A Python [str] is a [string]; the texts considered are ASCII, so that
      [str.upper], the classes [\s] and [\d] and case-insensitive matching
      act on code points below 128 only, and [str.encode()] yields one byte
      per character.
    - [hashlib.md5] is RFC 1321 on 32-bit words carried by [Z] with the
      wrap-around written out.
    - The third-party extraction libraries (pdfplumber, PyMuPDF, PIL,
      pytesseract) are oracles: functions of the uploaded file whose result
      is a value or a raised exception.
    - [st.session_state.processed_documents] is threaded explicitly; the
      readings of [datetime.now()] are part of the input of a batch.
    - Streamlit output calls ([st.write], [st.warning], [st.error], the
      progress bar and the result display) do not influence the stored
      records and are left out. *)

From Stdlib Require Import ZArith List String Ascii Bool Lia.
From Stdlib Require Import DecimalString.
From Stdlib Require PrimFloat Uint63.
Import ListNotations.

Local Open Scope list_scope.
Local Open Scope string_scope.

(* ================================================================== *)
(** ** Python string primitives *)

Module PyStr.

(** Truthiness of a [str]: [if text] holds for every non-empty string. *)
Definition truthy (s : string) : bool :=
  match s with
  | EmptyString => false
  | String _ _ => true
  end.

Definition code (c : ascii) : nat := nat_of_ascii c.

Definition in_range (lo hi c : ascii) : bool :=
  (code lo <=? code c)%nat && (code c <=? code hi)%nat.

Definition upper_ascii (c : ascii) : ascii :=
  if in_range "a" "z" c then ascii_of_nat (code c - 32) else c.

Definition lower_ascii (c : ascii) : ascii :=
  if in_range "A" "Z" c then ascii_of_nat (code c + 32) else c.

(** [s.upper()] *)
Fixpoint upper (s : string) : string :=
  match s with
  | EmptyString => EmptyString
  | String c s' => String (upper_ascii c) (upper s')
  end.

(** [s[:n]] *)
Fixpoint take (n : nat) (s : string) : string :=
  match n, s with
  | S n', String c s' => String c (take n' s')
  | _, _ => EmptyString
  end.

(** [s.split(sep)[-1]] for a one-character separator: what follows the
    last occurrence of [sep], or the whole string when there is none. *)
Fixpoint split_last (sep : ascii) (s : string) : string :=
  match s with
  | EmptyString => EmptyString
  | String c s' =>
      if existsb (Ascii.eqb sep) (list_ascii_of_string s') then split_last sep s'
      else if Ascii.eqb c sep then s' else s
  end.

(** [s.startswith(p)] *)
Fixpoint startswith (p s : string) : bool :=
  match p with
  | EmptyString => true
  | String a p' =>
      match s with
      | EmptyString => false
      | String b s' => Ascii.eqb a b && startswith p' s'
      end
  end.

(** [all(p(c) for c in s)] *)
Fixpoint all_chars (p : ascii -> bool) (s : string) : bool :=
  match s with
  | EmptyString => true
  | String c s' => p c && all_chars p s'
  end.

(** [s.encode()] on ASCII text: the code points. *)
Definition encode (s : string) : list Z :=
  map (fun c => Z.of_nat (code c)) (list_ascii_of_string s).

End PyStr.

(* ================================================================== *)
(** ** MD5 (RFC 1321), as used through [hashlib.md5(...).hexdigest()] *)

Module MD5.
Local Open Scope Z_scope.

Definition w32 (x : Z) : Z := x mod 2 ^ 32.

Definition leftrotate (x c : Z) : Z :=
  w32 (Z.lor (Z.shiftl x c) (Z.shiftr x (32 - c))).

Definition lnot32 (x : Z) : Z := Z.lxor x 0xFFFFFFFF.

(** per-round shift amounts *)
Definition s : list Z :=
  [7; 12; 17; 22; 7; 12; 17; 22; 7; 12; 17; 22; 7; 12; 17; 22;
   5;  9; 14; 20; 5;  9; 14; 20; 5;  9; 14; 20; 5;  9; 14; 20;
   4; 11; 16; 23; 4; 11; 16; 23; 4; 11; 16; 23; 4; 11; 16; 23;
   6; 10; 15; 21; 6; 10; 15; 21; 6; 10; 15; 21; 6; 10; 15; 21].

(** K[i] = floor(2^32 * abs(sin(i + 1))) *)
Definition K : list Z :=
  [0xd76aa478; 0xe8c7b756; 0x242070db; 0xc1bdceee;
   0xf57c0faf; 0x4787c62a; 0xa8304613; 0xfd469501;
   0x698098d8; 0x8b44f7af; 0xffff5bb1; 0x895cd7be;
   0x6b901122; 0xfd987193; 0xa679438e; 0x49b40821;
   0xf61e2562; 0xc040b340; 0x265e5a51; 0xe9b6c7aa;
   0xd62f105d; 0x02441453; 0xd8a1e681; 0xe7d3fbc8;
   0x21e1cde6; 0xc33707d6; 0xf4d50d87; 0x455a14ed;
   0xa9e3e905; 0xfcefa3f8; 0x676f02d9; 0x8d2a4c8a;
   0xfffa3942; 0x8771f681; 0x6d9d6122; 0xfde5380c;
   0xa4beea44; 0x4bdecfa9; 0xf6bb4b60; 0xbebfbc70;
   0x289b7ec6; 0xeaa127fa; 0xd4ef3085; 0x04881d05;
   0xd9d4d039; 0xe6db99e5; 0x1fa27cf8; 0xc4ac5665;
   0xf4292244; 0x432aff97; 0xab9423a7; 0xfc93a039;
   0x655b59c3; 0x8f0ccc92; 0xffeff47d; 0x85845dd1;
   0x6fa87e4f; 0xfe2ce6e0; 0xa3014314; 0x4e0811a1;
   0xf7537e82; 0xbd3af235; 0x2ad7d2bb; 0xeb86d391].

Definition state : Type := Z * Z * Z * Z.

Definition init : state := (0x67452301, 0xefcdab89, 0x98badcfe, 0x10325476).

Definition zth (i : Z) (l : list Z) : Z := nth (Z.to_nat i) l 0.

(** the round function and the index of the message word it reads *)
Definition round_fg (i B C D : Z) : Z * Z :=
  if i <? 16 then (Z.lor (Z.land B C) (Z.land (lnot32 B) D), i)
  else if i <? 32 then (Z.lor (Z.land D B) (Z.land (lnot32 D) C), (5 * i + 1) mod 16)
  else if i <? 48 then (Z.lxor (Z.lxor B C) D, (3 * i + 5) mod 16)
  else (Z.lxor C (Z.lor B (lnot32 D)), (7 * i) mod 16).

Definition step (M : list Z) (st : state) (i : Z) : state :=
  let '(A, B, C, D) := st in
  let '(F, g) := round_fg i B C D in
  let F := w32 (F + A + zth i K + zth g M) in
  (D, w32 (B + leftrotate F (zth i s)), B, C).

Definition process_chunk (h : state) (M : list Z) : state :=
  let '(a0, b0, c0, d0) := h in
  let '(A, B, C, D) := fold_left (step M) (map Z.of_nat (seq 0 64)) h in
  (w32 (a0 + A), w32 (b0 + B), w32 (c0 + C), w32 (d0 + D)).

(** [n] little-endian bytes of [x] *)
Fixpoint le_bytes (n : nat) (x : Z) : list Z :=
  match n with
  | O => []
  | S n' => x mod 256 :: le_bytes n' (x / 256)
  end.

Fixpoint le_value (bytes : list Z) : Z :=
  match bytes with
  | [] => 0
  | b :: bs => b + 256 * le_value bs
  end.

(** append the bit 1, zeros up to 56 modulo 64, and the bit length *)
Definition pad (msg : list Z) : list Z :=
  let len := Z.of_nat (List.length msg) in
  (msg ++ [0x80] ++ repeat 0 (Z.to_nat ((55 - len) mod 64))
       ++ le_bytes 8 ((8 * len) mod 2 ^ 64))%list.

(** cut a list into consecutive groups of [n] elements *)
Fixpoint groups {A : Type} (fuel n : nat) (l : list A) : list (list A) :=
  match fuel, l with
  | _, [] => []
  | O, _ => []
  | S fuel', _ => firstn n l :: groups fuel' n (skipn n l)
  end.

Definition chunks (bytes : list Z) : list (list Z) :=
  map (fun chunk => map le_value (groups 16 4 chunk))
      (groups (List.length bytes) 64 bytes).

Definition digest (msg : list Z) : list Z :=
  let '(a0, b0, c0, d0) := fold_left process_chunk (chunks (pad msg)) init in
  (le_bytes 4 a0 ++ le_bytes 4 b0 ++ le_bytes 4 c0 ++ le_bytes 4 d0)%list.

Definition hex_digit (d : Z) : ascii :=
  if d <? 10 then ascii_of_nat (Z.to_nat (48 + d))
  else ascii_of_nat (Z.to_nat (87 + d)).

Fixpoint hex (bytes : list Z) : string :=
  match bytes with
  | [] => EmptyString
  | b :: bs => String (hex_digit (b / 16)) (String (hex_digit (b mod 16)) (hex bs))
  end.

Definition hexdigest (msg : list Z) : string := hex (digest msg).

End MD5.

(** [calculate_hash(content)] *)
Definition calculate_hash (content : string) : string :=
  MD5.hexdigest (PyStr.encode content).

(* ================================================================== *)
(** ** Regular expressions: the fragment of Python's [re] the program uses *)

Module Re.

(** Sets of characters: what a single position of a pattern accepts. *)
Inductive cset : Type :=
| Lit (c : ascii)              (* a literal character, also inside [...] *)
| Range (lo hi : ascii)        (* lo-hi inside [...] *)
| Space                        (* \s *)
| Digit                        (* \d *)
| Union (a b : cset).          (* juxtaposition inside [...] *)

(** A pattern. Every quantifier of the program's patterns applies to a
    single-character set, so repetition is on [cset]. *)
Inductive regex : Type :=
| Eps
| Chr (a : cset)
| Rep (a : cset) (lo : nat) (hi : option nat)   (* greedy a{lo,hi} *)
| Seq (r1 r2 : regex)
| Group (r : regex).                            (* capturing group 1 *)

Definition Star (a : cset) : regex := Rep a 0 None.      (* a* *)
Definition Plus (a : cset) : regex := Rep a 1 None.      (* a+ *)
Definition Opt (a : cset) : regex := Rep a 0 (Some 1).   (* a? *)
Definition Times (a : cset) (n : nat) : regex := Rep a n (Some n).  (* a{n} *)

(** a run of literal characters *)
Fixpoint Str (s : string) : regex :=
  match s with
  | EmptyString => Eps
  | String c s' => Seq (Chr (Lit c)) (Str s')
  end.

Fixpoint Cat (rs : list regex) : regex :=
  match rs with
  | [] => Eps
  | r :: rs' => Seq r (Cat rs')
  end.

(** [\s] on ASCII: tab, line feed, vertical tab, form feed, carriage
    return, the separators 28-31 and the space. *)
Definition is_space (c : ascii) : bool :=
  let n := PyStr.code c in
  ((9 <=? n) && (n <=? 13) || (28 <=? n) && (n <=? 32))%nat.

Definition is_digit (c : ascii) : bool := PyStr.in_range "0" "9" c.

Fixpoint accepts (ignorecase : bool) (a : cset) (c : ascii) : bool :=
  match a with
  | Lit x =>
      if ignorecase then Ascii.eqb (PyStr.lower_ascii x) (PyStr.lower_ascii c)
      else Ascii.eqb x c
  | Range lo hi =>
      PyStr.in_range lo hi c
      || (ignorecase && (PyStr.in_range lo hi (PyStr.lower_ascii c)
                          || PyStr.in_range lo hi (PyStr.upper_ascii c)))
  | Space => is_space c
  | Digit => is_digit c
  | Union x y => accepts ignorecase x c || accepts ignorecase y c
  end.

(** Greedy repetition with backtracking: take one more character when the
    bound allows it and the rest of the pattern then succeeds, otherwise
    stop here if the lower bound is reached. *)
Fixpoint rep {R : Type} (ignorecase : bool) (a : cset) (lo : nat) (hi : option nat)
    (s : string) (k : string -> option R) {struct s} : option R :=
  let stop := match lo with O => k s | S _ => None end in
  match s with
  | EmptyString => stop
  | String c s' =>
      if accepts ignorecase a c && negb (match hi with Some O => true | _ => false end) then
        match rep ignorecase a (Nat.pred lo) (option_map Nat.pred hi) s' k with
        | Some r => Some r
        | None => stop
        end
      else stop
  end.

(** Matching at the start of [s], by continuations: [k] receives what is
    left of the input and the text captured so far by group 1. *)
Fixpoint run {R : Type} (ignorecase : bool) (r : regex) (s : string)
    (cap : option string) (k : string -> option string -> option R) : option R :=
  match r with
  | Eps => k s cap
  | Chr a =>
      match s with
      | String c s' => if accepts ignorecase a c then k s' cap else None
      | EmptyString => None
      end
  | Rep a lo hi => rep ignorecase a lo hi s (fun s' => k s' cap)
  | Seq r1 r2 =>
      run ignorecase r1 s cap (fun s1 cap1 => run ignorecase r2 s1 cap1 k)
  | Group r1 =>
      run ignorecase r1 s cap
        (fun s1 _ => k s1 (Some (PyStr.take (String.length s - String.length s1) s)))
  end.

(** A match object: [group(0)], [group(1)] and the input after the match. *)
Record Match : Type := mkMatch {
  group0 : string;
  group1 : option string;
  rest : string
}.

Definition match_at (ignorecase : bool) (r : regex) (s : string) : option Match :=
  run ignorecase r s None
    (fun s' cap =>
       Some (mkMatch (PyStr.take (String.length s - String.length s') s) cap s')).

(** [re.search(pattern, s, flags)]: the match at the leftmost position
    that has one. *)
Fixpoint search (ignorecase : bool) (r : regex) (s : string) : option Match :=
  match match_at ignorecase r s with
  | Some m => Some m
  | None =>
      match s with
      | EmptyString => None
      | String _ s' => search ignorecase r s'
      end
  end.

(** [re.findall(pattern, s)] for a pattern without groups: the texts of the
    successive non-overlapping matches, left to right. [skip] counts the
    characters still covered by the previous match. *)
Fixpoint findall_from (ignorecase : bool) (r : regex) (skip : nat) (s : string)
    : list string :=
  match skip, s with
  | S n, String _ s' => findall_from ignorecase r n s'
  | S _, EmptyString => []
  | O, _ =>
      match match_at ignorecase r s with
      | Some m =>
          group0 m ::
            match s with
            | EmptyString => []
            | String _ s' =>
                findall_from ignorecase r (Nat.pred (String.length (group0 m))) s'
            end
      | None =>
          match s with
          | EmptyString => []
          | String _ s' => findall_from ignorecase r O s'
          end
      end
  end.

Definition findall (ignorecase : bool) (r : regex) (s : string) : list string :=
  findall_from ignorecase r O s.

(** The number of characters of every match of [r], when all matches
    have the same length. *)
Fixpoint width (r : regex) : option nat :=
  match r with
  | Eps => Some 0
  | Chr _ => Some 1
  | Rep _ lo (Some hi) => if (lo =? hi)%nat then Some lo else None
  | Rep _ _ None => None
  | Seq r1 r2 =>
      match width r1, width r2 with
      | Some w1, Some w2 => Some (w1 + w2)
      | _, _ => None
      end
  | Group r1 => width r1
  end.

(** The characters a match of [r] can hold: those one of its sets accepts. *)
Fixpoint alphabet (ignorecase : bool) (r : regex) (c : ascii) : bool :=
  match r with
  | Eps => false
  | Chr a => accepts ignorecase a c
  | Rep a _ _ => accepts ignorecase a c
  | Seq r1 r2 => alphabet ignorecase r1 c || alphabet ignorecase r2 c
  | Group r1 => alphabet ignorecase r1 c
  end.

End Re.

(** The five patterns of the program. *)

(** [r'[0-9]{2}[A-Z]{5}[0-9]{4}[A-Z]{1}[1-9A-Z]{1}[Z]{1}[0-9A-Z]{1}'] *)
Definition gstin_regex : Re.regex :=
  Re.Cat [Re.Times (Re.Range "0" "9") 2;
          Re.Times (Re.Range "A" "Z") 5;
          Re.Times (Re.Range "0" "9") 4;
          Re.Times (Re.Range "A" "Z") 1;
          Re.Times (Re.Union (Re.Range "1" "9") (Re.Range "A" "Z")) 1;
          Re.Times (Re.Lit "Z") 1;
          Re.Times (Re.Union (Re.Range "0" "9") (Re.Range "A" "Z")) 1].

(** [\d+\.\d{2}], the shape of an amount *)
Definition amount_digits : Re.regex :=
  Re.Cat [Re.Plus Re.Digit; Re.Chr (Re.Lit "."); Re.Times Re.Digit 2].

(** [r'GST\s*@?\s*(\d+)%'] *)
Definition rate_regex : Re.regex :=
  Re.Cat [Re.Str "GST"; Re.Star Re.Space; Re.Opt (Re.Lit "@"); Re.Star Re.Space;
          Re.Group (Re.Plus Re.Digit); Re.Chr (Re.Lit "%")].

(** [r'Total\s*:\s*(\d+\.\d{2})'] *)
Definition amount_regex : Re.regex :=
  Re.Cat [Re.Str "Total"; Re.Star Re.Space; Re.Chr (Re.Lit ":"); Re.Star Re.Space;
          Re.Group amount_digits].

(** [r'Sub\s*Total\s*:\s*(\d+\.\d{2})'] *)
Definition subtotal_regex : Re.regex :=
  Re.Cat [Re.Str "Sub"; Re.Star Re.Space; Re.Str "Total"; Re.Star Re.Space;
          Re.Chr (Re.Lit ":"); Re.Star Re.Space; Re.Group amount_digits].

(** [r'GST\s*:\s*(\d+\.\d{2})'] *)
Definition tax_regex : Re.regex :=
  Re.Cat [Re.Str "GST"; Re.Star Re.Space; Re.Chr (Re.Lit ":"); Re.Star Re.Space;
          Re.Group amount_digits].

(** [extract_gstin(text)] *)
Definition extract_gstin (text : string) : option string :=
  let matches := Re.findall false gstin_regex (PyStr.upper text) in
  match matches with
  | m :: _ => Some m
  | [] => None
  end.

(** [extract_gst_rate(text)] *)
Definition extract_gst_rate (text : string) : option string :=
  let matches := Re.search true rate_regex text in
  match matches with
  | Some m => Re.group1 m
  | None => None
  end.

(* ================================================================== *)
(** ** Amounts: [float(...)], [np.isclose] and the printing of a float *)

Module PyFloat.
Import PrimFloat.

(** the number written by the decimal digits of [s], other characters
    (the decimal point) skipped *)
Fixpoint digits_value (acc : Z) (s : string) : Z :=
  match s with
  | EmptyString => acc
  | String c s' =>
      if Re.is_digit c
      then digits_value (10 * acc + (Z.of_nat (PyStr.code c) - 48))%Z s'
      else digits_value acc s'
  end.

(** For a literal [s] of the shape [\d+\.\d{2}], its value in hundredths. *)
Definition hundredths (s : string) : Z := digits_value 0 s.

(** the binary64 number of a small non-negative integer *)
Definition of_int (n : Z) : float := of_uint63 (Uint63.of_Z n).

(** [float(s)] for such a literal: the binary64 number nearest to
    [hundredths s / 100]. The correctly rounded quotient of two binary64
    numbers is that number as long as the numerator is exact, that is
    for [hundredths s < 2^53]. *)
Definition of_literal (s : string) : float :=
  div (of_int (hundredths s)) (of_int 100).

(** the constants 0.01 and 1e-05 *)
Definition atol : float := div (of_int 1) (of_int 100).
Definition rtol : float := div (of_int 1) (of_int 100000).

(** [np.isclose(a, b, atol=0.01)] on finite numbers, with numpy's default
    [rtol=1e-05]: [abs(a - b) <= atol + rtol * abs(b)]. *)
Definition isclose (a b : float) : bool :=
  leb (abs (sub a b)) (add atol (mul rtol (abs b))).

Definition decimal (n : Z) : string :=
  NilZero.string_of_uint (N.to_uint (Z.to_N n)).

(** [repr(float(s))], what an f-string prints for the parsed amount: the
    shortest decimal that reads back as the same binary64 number. For a
    literal of at most 15 significant digits this is the literal without
    leading zeros and with one trailing zero of the fraction dropped. *)
Definition repr_of_literal (s : string) : string :=
  let n := hundredths s in
  let frac := (n mod 100)%Z in
  decimal (n / 100)%Z ++ "." ++
    (if frac mod 10 =? 0 then decimal (frac / 10)
     else decimal (frac / 10) ++ decimal (frac mod 10))%Z.

End PyFloat.

(* ================================================================== *)
(** ** Data model *)

(** An uploaded file, as Streamlit hands it over. *)
Module Upload.
Record t : Type := mk {
  name : string;     (* uploaded_file.name *)
  type : string;     (* uploaded_file.type, the MIME type *)
  data : string      (* the raw content *)
}.
End Upload.

(** An anomaly: the pair (severity, message) the program appends. *)
Definition Anomaly : Type := (string * string)%type.

(** One entry of [st.session_state.processed_documents]. *)
Module Doc.
Record t : Type := mk {
  name : string;
  hash : string;
  text : string;
  anomalies : list Anomaly;
  timestamp : Z
}.
End Doc.

(** The result of a call into a third-party library. *)
Inductive outcome (A : Type) : Type :=
| Returns (a : A)
| Raises.
Arguments Returns {A} a.
Arguments Raises {A}.

(** [GST_RATES] *)
Definition GST_RATES : list (string * PrimFloat.float) :=
  [("0", PyFloat.of_int 0); ("5", PyFloat.of_int 5); ("12", PyFloat.of_int 12);
   ("18", PyFloat.of_int 18); ("28", PyFloat.of_int 28)].

(** [key in d] for a dict *)
Definition dict_mem {V : Type} (key : string) (d : list (string * V)) : bool :=
  existsb (fun kv => String.eqb (fst kv) key) d.

Definition anomaly_eqb (a b : Anomaly) : bool :=
  String.eqb (fst a) (fst b) && String.eqb (snd a) (snd b).

(** the number of entries of [l] equal to [a] *)
Definition count (a : Anomaly) (l : list Anomaly) : nat :=
  List.length (filter (anomaly_eqb a) l).

(** [check_calculations(text)] *)
Definition check_calculations (text : string) : bool * string :=
  let matches := Re.search true amount_regex text in
  match matches with
  | None => (false, "Total amount not found")
  | Some m =>
      let total_text := match Re.group1 m with Some g => g | None => "" end in
      let total := PyFloat.of_literal total_text in
      let subtotal_match := Re.search true subtotal_regex text in
      let tax_match := Re.search true tax_regex text in
      match subtotal_match, tax_match with
      | Some sm, Some tm =>
          let subtotal_text := match Re.group1 sm with Some g => g | None => "" end in
          let tax_text := match Re.group1 tm with Some g => g | None => "" end in
          let subtotal := PyFloat.of_literal subtotal_text in
          let tax := PyFloat.of_literal tax_text in
          let calculated_total := PrimFloat.add subtotal tax in
          if negb (PyFloat.isclose total calculated_total)
          then (false,
                "Calculation mismatch: " ++ PyFloat.repr_of_literal subtotal_text
                  ++ " + " ++ PyFloat.repr_of_literal tax_text
                  ++ " ≠ " ++ PyFloat.repr_of_literal total_text)
          else (true, "Calculations OK")
      | _, _ => (true, "Calculations OK")
      end
  end.

(** [validate_gst_rate(rate)] *)
Definition validate_gst_rate (rate : string) : bool * string :=
  if negb (dict_mem rate GST_RATES)
  then (false, "Non-standard GST rate: " ++ rate ++ "%")
  else (true, "Valid GST rate: " ++ rate ++ "%").

(** The anomaly entries of the program. *)
Definition critical_no_text : Anomaly := ("Critical", "Could not extract text from document").
Definition high_duplicate : Anomaly := ("High", "Duplicate document detected").
Definition high_no_gstin : Anomaly := ("High", "GSTIN not found in document").
Definition high_invalid_gstin (gstin : string) : Anomaly :=
  ("High", "Invalid GSTIN format: " ++ gstin).
Definition low_no_rate : Anomaly := ("Low", "GST rate not specified").

(** User interactions: each one reruns the script with one button pressed. *)
Inductive Interaction : Type :=
| ProcessDocuments (uploaded_files : list (Upload.t * Z))
    (* the queued uploads, each with the reading of [datetime.now()] taken
       when its record is stored *)
| ClearAllData.

(** A line feed. *)
Definition nl : string := String (ascii_of_nat 10) "".

(** Oracles of a world where every file is a PDF with a one-page text layer
    holding the file's content, and OCR is unavailable. *)
Definition text_layer (f : Upload.t) : outcome (list (outcome (option string))) :=
  Returns [Returns (Some (Upload.data f))].
Definition no_ocr_pages (f : Upload.t) : outcome (list (outcome string)) := Raises.
Definition no_ocr_image (f : Upload.t) : outcome string := Raises.

Definition pdf_of (name text : string) : Upload.t :=
  Upload.mk name "application/pdf" text.

(** The three lines of the calculation example of the specification. *)
Definition invoice_lines : string :=
  "Sub Total : 100.00" ++ nl ++ "GST : 18.00" ++ nl ++ "Total : 118.00".

(** The same lines with the total first. *)
Definition invoice_lines_total_first : string :=
  "Total : 118.00" ++ nl ++ "Sub Total : 100.00" ++ nl ++ "GST : 18.00".

(** Oracles of a world where every library call raises. *)
Definition broken_pdf (f : Upload.t) : outcome (list (outcome (option string))) := Raises.

(** A text with the 14-character near-miss of a GSTIN and nothing else of
    that shape. *)
Definition near_miss_text : string := "GSTIN 27AAAPL1234C1Z".

(** The record stored for a one-line document "hello" uploaded as
    [first.pdf] at time 1 into an empty store. *)
Definition hello_record : Doc.t :=
  Doc.mk "first.pdf" "5d41402abc4b2a76b9719d911017c592" "hello"
    [high_no_gstin; low_no_rate; ("High", "Total amount not found")] 1.

(** The standard GST rates, as the specification lists them. *)
Definition standard_rates : list string := ["0"; "5"; "12"; "18"; "28"].

(** ["".join(l)] *)
Definition join (l : list string) : string := fold_right String.append "" l.

(** The summary statistics of the results display. *)
Definition total_docs (processed_documents : list Doc.t) : nat :=
  List.length processed_documents.

Definition total_anomalies (processed_documents : list Doc.t) : nat :=
  list_sum (map (fun doc => List.length (Doc.anomalies doc)) processed_documents).

(** [sum(1 for doc in docs for anomaly in doc['anomalies'] if anomaly[0] == severity)] *)
Definition count_severity (severity : string) (processed_documents : list Doc.t) : nat :=
  List.length (filter (fun anomaly : Anomaly => String.eqb (fst anomaly) severity)
                      (flat_map Doc.anomalies processed_documents)).

Definition critical_anomalies : list Doc.t -> nat := count_severity "Critical".
Definition high_anomalies : list Doc.t -> nat := count_severity "High".

(** The extract of the text shown for a document:
    [doc['text'][:1000] + ("..." if len(doc['text']) > 1000 else "")] *)
Definition shown_text (text : string) : string :=
  PyStr.take 1000 text ++ (if (1000 <? String.length text)%nat then "..." else "").

(** A letter, digit or capital of the ASCII range. *)
Definition is_upper_alnum (c : ascii) : bool :=
  Re.is_digit c || PyStr.in_range "A" "Z" c.

Definition is_lower_hex (c : ascii) : bool :=
  Re.is_digit c || PyStr.in_range "a" "f" c.

(** The two shapes of a stored record: empty text with the single Critical
    entry, or a text with at most four entries, none of them Critical. *)
Definition record_shape (d : Doc.t) : Prop :=
  (Doc.text d = "" /\ Doc.anomalies d = [critical_no_text])
  \/ (Doc.text d <> ""
      /\ (List.length (Doc.anomalies d) <= 4)%nat
      /\ Forall (fun a : Anomaly => In (fst a) ["High"; "Medium"; "Low"])
                (Doc.anomalies d)).

(** The text of a page read by pdfplumber, [page.extract_text() or ""]
    when the call returns. *)
Definition page_text (t : option string) : string :=
  match t with
  | Some x => x
  | None => ""
  end.

(** Oracles of a world where the text layer gives one page and then fails,
    and OCR reads the document as one page. *)
Definition half_read (f : Upload.t) : outcome (list (outcome (option string))) :=
  Returns [Returns (Some "page one "); Raises; Returns (Some "page three")].
Definition ocr_reads (f : Upload.t) : outcome (list (outcome string)) :=
  Returns [Returns (Upload.data f)].

(** A document with a GSTIN, a standard rate and amounts that add up, the
    total line first. *)
Definition clean_invoice : string :=
  "GSTIN 27AAAPL1234C1Z5" ++ nl ++ "GST @18%" ++ nl ++ invoice_lines_total_first.

(** [s * n] *)
Fixpoint times_string (s : string) (n : nat) : string :=
  match n with
  | O => ""
  | S n' => s ++ times_string s n'
  end.

(** An image upload. *)
Definition png_of (name data : string) : Upload.t := Upload.mk name "image/png" data.

Section Detector.

(** [pdfplumber.open(f)]: raises, or yields the pages; [page.extract_text()]
    raises, or returns [None] or a string. *)
Variable pdfplumber_open : Upload.t -> outcome (list (outcome (option string))).

(** [fitz.open(stream=f.read(), filetype="pdf")]: raises, or yields the
    pages; rendering a page and [pytesseract.image_to_string] on it raises
    or returns a string. *)
Variable fitz_ocr_pages : Upload.t -> outcome (list (outcome string)).

(** [pytesseract.image_to_string(Image.open(f))] *)
Variable image_ocr : Upload.t -> outcome string.

(** [for page in pages: text += page_text], stopped by the first exception;
    the flag tells whether one was raised. *)
Fixpoint concat_pages (text : string) (pages : list (outcome string)) : string * bool :=
  match pages with
  | [] => (text, false)
  | Returns t :: pages' => concat_pages (text ++ t) pages'
  | Raises :: _ => (text, true)
  end.

(** [page.extract_text() or ""] *)
Definition text_or_empty (r : outcome (option string)) : outcome string :=
  match r with
  | Returns (Some t) => Returns t
  | Returns None => Returns ""
  | Raises => Raises
  end.

(** [extract_text_from_pdf(uploaded_file)] *)
Definition extract_text_from_pdf (uploaded_file : Upload.t) : string :=
  let text := "" in
  let '(text, raised) :=
    match pdfplumber_open uploaded_file with
    | Returns pages => concat_pages text (map text_or_empty pages)
    | Raises => (text, true)
    end in
  if raised then
    match fitz_ocr_pages uploaded_file with
    | Returns doc => fst (concat_pages text doc)
    | Raises => text
    end
  else text.

(** [extract_text_from_image(uploaded_file)] *)
Definition extract_text_from_image (uploaded_file : Upload.t) : string :=
  match image_ocr uploaded_file with
  | Returns t => t
  | Raises => ""
  end.

(** [process_document(uploaded_file, file_type)], reading
    [st.session_state.processed_documents] as [processed_documents]. *)
Definition process_document (processed_documents : list Doc.t)
    (uploaded_file : Upload.t) (file_type : string) : list Anomaly * string :=
  let anomalies : list Anomaly := [] in
  let text :=
    if String.eqb file_type "pdf" then extract_text_from_pdf uploaded_file
    else extract_text_from_image uploaded_file in
  if negb (PyStr.truthy text) then
    let anomalies := (anomalies ++ [critical_no_text])%list in
    (anomalies, text)
  else
    (* Check for duplicate document *)
    let doc_hash := calculate_hash text in
    let anomalies :=
      if existsb (fun doc => String.eqb (Doc.hash doc) doc_hash) processed_documents
      then (anomalies ++ [high_duplicate])%list else anomalies in
    (* GSTIN validation *)
    let gstin := extract_gstin text in
    let anomalies :=
      match gstin with
      | None => (anomalies ++ [high_no_gstin])%list
      | Some g =>
          if negb (PyStr.truthy g) then (anomalies ++ [high_no_gstin])%list
          else if negb (String.length g =? 15)%nat
          then (anomalies ++ [high_invalid_gstin g])%list
          else anomalies
      end in
    (* GST rate validation *)
    let gst_rate := extract_gst_rate text in
    let anomalies :=
      match gst_rate with
      | Some rate =>
          if PyStr.truthy rate then
            let '(is_valid, msg) := validate_gst_rate rate in
            if negb is_valid then (anomalies ++ [("Medium", msg)])%list else anomalies
          else (anomalies ++ [low_no_rate])%list
      | None => (anomalies ++ [low_no_rate])%list
      end in
    (* Calculation validation *)
    let '(calc_ok, calc_msg) := check_calculations text in
    let anomalies :=
      if negb calc_ok then (anomalies ++ [("High", calc_msg)])%list else anomalies in
    (anomalies, text).

(** The body of the processing loop for one upload: the file type is
    derived from the MIME type, the document is processed and its record
    is appended to the store. *)
Definition document_record (processed_documents : list Doc.t)
    (upload : Upload.t * Z) : Doc.t :=
  let '(uploaded_file, now) := upload in
  let file_type := PyStr.split_last "/" (Upload.type uploaded_file) in
  let file_type := if String.eqb file_type "pdf" then "pdf" else "image" in
  let '(anomalies, text) := process_document processed_documents uploaded_file file_type in
  let doc_hash := calculate_hash text in
  Doc.mk (Upload.name uploaded_file) doc_hash text anomalies now.

Definition process_upload (processed_documents : list Doc.t)
    (upload : Upload.t * Z) : list Doc.t :=
  (processed_documents ++ [document_record processed_documents upload])%list.

(** [for i, uploaded_file in enumerate(uploaded_files): ...] *)
Definition process_documents (processed_documents : list Doc.t)
    (uploaded_files : list (Upload.t * Z)) : list Doc.t :=
  fold_left process_upload uploaded_files processed_documents.

(** One run of the script on the session state. *)
Definition rerun (processed_documents : list Doc.t) (i : Interaction) : list Doc.t :=
  match i with
  | ProcessDocuments uploaded_files =>
      match uploaded_files with
      | [] => processed_documents
      | _ :: _ => process_documents processed_documents uploaded_files
      end
  | ClearAllData => []
  end.

(** A session: the store starts empty and every interaction reruns the
    script. *)
Definition session (interactions : list Interaction) : list Doc.t :=
  fold_left rerun interactions [].

(** *** The rules as the specification words them (section 4.4): each
    contributes zero or one entry, from the text and the store alone. *)

Definition rule_duplicate (processed_documents : list Doc.t) (text : string)
    : list Anomaly :=
  if existsb (fun doc => String.eqb (Doc.hash doc) (calculate_hash text))
             processed_documents
  then [high_duplicate] else [].

Definition rule_gstin (text : string) : list Anomaly :=
  match extract_gstin text with
  | None => [high_no_gstin]
  | Some g => if (String.length g =? 15)%nat then [] else [high_invalid_gstin g]
  end.

Definition rule_gst_rate (text : string) : list Anomaly :=
  match extract_gst_rate text with
  | None => [low_no_rate]
  | Some rate =>
      if dict_mem rate GST_RATES then []
      else [("Medium", "Non-standard GST rate: " ++ rate ++ "%")]
  end.

Definition rule_calculation (text : string) : list Anomaly :=
  if fst (check_calculations text) then []
  else [("High", snd (check_calculations text))].

(** An anomaly of the GST rate rule, recognised by its message. *)
Definition is_rate_anomaly (a : Anomaly) : bool :=
  String.eqb (snd a) "GST rate not specified"
  || PyStr.startswith "Non-standard GST rate: " (snd a).

(** An anomaly of the GSTIN format check, recognised by its message. *)
Definition is_invalid_gstin_anomaly (a : Anomaly) : bool :=
  PyStr.startswith "Invalid GSTIN format: " (snd a).

(** the text the program extracts from an upload *)
Definition extracted_text (uploaded_file : Upload.t) : string :=
  let file_type := PyStr.split_last "/" (Upload.type uploaded_file) in
  if String.eqb file_type "pdf" then extract_text_from_pdf uploaded_file
  else extract_text_from_image uploaded_file.


(* ================================================================ *)
(** ** Strings and regular expressions *)

Lemma take_length (n : nat) (s : string) :
  String.length (PyStr.take n s) = Nat.min n (String.length s).
Proof.
  revert s; induction n as [|n IH]; intros [|c s]; simpl; auto.
Qed.

Lemma truthy_iff (s : string) : PyStr.truthy s = true <-> s <> "".
Proof.
  destruct s; simpl; split; congruence.
Qed.

Lemma nonempty_of_length (s : string) : (1 <= String.length s)%nat -> s <> "".
Proof.
  destruct s; simpl; [lia | discriminate].
Qed.

Lemma rep_inv {R : Type} (ic : bool) (a : Re.cset) (s : string) :
  forall (lo : nat) (hi : option nat) (k : string -> option R) (x : R),
    Re.rep ic a lo hi s k = Some x ->
    exists s1 n,
      k s1 = Some x
      /\ String.length s = (n + String.length s1)%nat
      /\ (lo <= n)%nat
      /\ (forall h, hi = Some h -> (n <= h)%nat).
Proof.
  induction s as [|c s IH]; intros lo hi k x H; simpl in H.
  - destruct lo; [|discriminate].
    exists "", 0%nat. repeat split; auto; intros; lia.
  - assert (Hstop : match lo with O => k (String c s) | S _ => None end = Some x ->
                    exists s1 n, k s1 = Some x
                      /\ String.length (String c s) = (n + String.length s1)%nat
                      /\ (lo <= n)%nat /\ (forall h, hi = Some h -> (n <= h)%nat)).
    { intros Hs. destruct lo; [|discriminate].
      exists (String c s), 0%nat. repeat split; auto; intros; lia. }
    destruct (Re.accepts ic a c && negb match hi with Some O => true | _ => false end) eqn:Hc;
      [|auto].
    destruct (Re.rep ic a (Nat.pred lo) (option_map Nat.pred hi) s k) as [r|] eqn:Hr; [|auto].
    inversion H; subst r.
    destruct (IH _ _ _ _ Hr) as (s1 & n & Hk & Hlen & Hlo & Hhi).
    exists s1, (S n). repeat split; auto.
    + simpl. lia.
    + lia.
    + intros h Hh. subst hi. simpl in Hhi.
      destruct h as [|h].
      * rewrite andb_comm in Hc. discriminate.
      * specialize (Hhi h eq_refl). lia.
Qed.

Lemma rep_ext {R : Type} (ic : bool) (a : Re.cset) (s : string) :
  forall (lo : nat) (hi : option nat) (k1 k2 : string -> option R),
    (forall s', k1 s' = k2 s') ->
    Re.rep ic a lo hi s k1 = Re.rep ic a lo hi s k2.
Proof.
  induction s as [|c s IH]; intros lo hi k1 k2 E; simpl.
  - destruct lo; auto.
  - rewrite (IH _ _ k1 k2 E), E. reflexivity.
Qed.

Lemma run_ext {R : Type} (ic : bool) (r : Re.regex) :
  forall (s : string) (cap : option string) (k1 k2 : string -> option string -> option R),
    (forall s' c', k1 s' c' = k2 s' c') ->
    Re.run ic r s cap k1 = Re.run ic r s cap k2.
Proof.
  induction r as [|a|a lo hi|r1 IH1 r2 IH2|r1 IH1]; intros s cap k1 k2 E; simpl.
  - apply E.
  - destruct s; [reflexivity|]. rewrite E. reflexivity.
  - apply rep_ext. intros; apply E.
  - apply IH1. intros; apply IH2, E.
  - apply IH1. intros; apply E.
Qed.

Lemma run_inv {R : Type} (ic : bool) (r : Re.regex) :
  forall (s : string) (cap : option string)
         (k : string -> option string -> option R) (x : R),
    Re.run ic r s cap k = Some x ->
    exists s1 cap1,
      k s1 cap1 = Some x
      /\ (forall w, Re.width r = Some w -> String.length s = (w + String.length s1)%nat).
Proof.
  induction r as [|a|a lo hi|r1 IH1 r2 IH2|r1 IH1]; intros s cap k x H; simpl in H.
  - exists s, cap. split; auto. simpl; intros w [= <-]; reflexivity.
  - destruct s as [|c s]; [discriminate|].
    destruct (Re.accepts ic a c); [|discriminate].
    exists s, cap. split; auto. simpl; intros w [= <-]; reflexivity.
  - destruct (rep_inv _ _ _ _ _ _ _ H) as (s1 & n & Hk & Hlen & Hlo & Hhi).
    exists s1, cap. split; auto.
    simpl. intros w Hw. destruct hi as [hi|]; [|discriminate].
    destruct (Nat.eqb_spec lo hi); [|discriminate].
    injection Hw as <-. specialize (Hhi _ eq_refl). lia.
  - destruct (IH1 _ _ _ _ H) as (s1 & cap1 & Hk1 & Hw1).
    destruct (IH2 _ _ _ _ Hk1) as (s2 & cap2 & Hk2 & Hw2).
    exists s2, cap2. split; auto.
    simpl. intros w Hw.
    destruct (Re.width r1) as [w1|]; [|discriminate].
    destruct (Re.width r2) as [w2|]; [|discriminate].
    injection Hw as <-. rewrite (Hw1 _ eq_refl), (Hw2 _ eq_refl). lia.
  - destruct (IH1 _ _ _ _ H) as (s1 & cap1 & Hk1 & Hw1).
    eexists s1, _. split; [exact Hk1 | exact Hw1].
Qed.

Lemma run_Cat_app {R : Type} (ic : bool) (rs1 rs2 : list Re.regex) :
  forall (s : string) (cap : option string) (k : string -> option string -> option R),
    Re.run ic (Re.Cat (rs1 ++ rs2)) s cap k
    = Re.run ic (Re.Cat rs1) s cap (fun s1 c1 => Re.run ic (Re.Cat rs2) s1 c1 k).
Proof.
  induction rs1 as [|r rs1 IH]; intros s cap k; simpl.
  - reflexivity.
  - apply run_ext. intros; apply IH.
Qed.

Lemma match_at_width (ic : bool) (r : Re.regex) (s : string) (m : Re.Match) (w : nat) :
  Re.match_at ic r s = Some m -> Re.width r = Some w ->
  String.length (Re.group0 m) = w.
Proof.
  unfold Re.match_at. intros H Hw.
  destruct (run_inv _ _ _ _ _ _ H) as (s1 & cap1 & Hk & Hlen).
  injection Hk as <-. simpl.
  rewrite take_length, (Hlen _ Hw). lia.
Qed.

Lemma search_inv (ic : bool) (r : Re.regex) (s : string) (m : Re.Match) :
  Re.search ic r s = Some m -> exists s', Re.match_at ic r s' = Some m.
Proof.
  induction s as [|c s IH]; simpl; intros H.
  - destruct (Re.match_at ic r "") eqn:E; [|discriminate].
    exists "". congruence.
  - destruct (Re.match_at ic r (String c s)) eqn:E.
    + exists (String c s). congruence.
    + auto.
Qed.

Lemma findall_from_inv (ic : bool) (r : Re.regex) (s : string) :
  forall (skip : nat) (x : string),
    In x (Re.findall_from ic r skip s) ->
    exists s' m, Re.match_at ic r s' = Some m /\ Re.group0 m = x.
Proof.
  induction s as [|c s IH]; intros skip x H.
  - destruct skip; simpl in H; [|contradiction].
    destruct (Re.match_at ic r "") eqn:E; simpl in H; [|contradiction].
    destruct H as [<-|[]]. eauto.
  - destruct skip; simpl in H; [|eauto].
    destruct (Re.match_at ic r (String c s)) eqn:E; [|eauto].
    destruct H as [<-|H]; eauto.
Qed.

(** Every GSTIN the program extracts has exactly 15 characters. *)
Lemma extract_gstin_length (text g : string) :
  extract_gstin text = Some g -> String.length g = 15%nat.
Proof.
  unfold extract_gstin, Re.findall. intros H.
  destruct (Re.findall_from false gstin_regex 0 (PyStr.upper text)) as [|m ms] eqn:E;
    [discriminate|].
  injection H as ->.
  destruct (findall_from_inv false gstin_regex (PyStr.upper text) 0 g) as (s' & m & Hm & <-).
  { rewrite E. left; reflexivity. }
  apply (match_at_width _ _ _ _ _ Hm). reflexivity.
Qed.

(** The rate the program extracts is a non-empty run of digits' text. *)
Lemma extract_gst_rate_nonempty (text rate : string) :
  extract_gst_rate text = Some rate -> rate <> "".
Proof.
  unfold extract_gst_rate. intros H.
  destruct (Re.search true rate_regex text) as [m|] eqn:E; [|discriminate].
  destruct (search_inv _ _ _ _ E) as (s & Hm). clear E.
  unfold Re.match_at in Hm.
  change rate_regex with
    (Re.Cat ([Re.Str "GST"; Re.Star Re.Space; Re.Opt (Re.Lit "@"); Re.Star Re.Space]
             ++ [Re.Group (Re.Plus Re.Digit); Re.Chr (Re.Lit "%")])) in Hm.
  rewrite run_Cat_app in Hm.
  destruct (run_inv _ _ _ _ _ _ Hm) as (s1 & cap1 & Hk & _). clear Hm.
  cbn [Re.Cat Re.run Re.Plus] in Hk.
  destruct (rep_inv _ _ _ _ _ _ _ Hk) as (s2 & n & Hk2 & Hlen & Hlo & _). clear Hk.
  destruct s2 as [|c s2]; [discriminate|].
  destruct (Re.accepts true (Re.Lit "%") c); [|discriminate].
  injection Hk2 as <-. simpl in H. injection H as <-.
  apply nonempty_of_length. rewrite take_length, Hlen. simpl. lia.
Qed.

(* ================================================================ *)
(** ** The rules, one by one *)

Lemma rule_duplicate_cases (docs : list Doc.t) (text : string) :
  (rule_duplicate docs text = []
   /\ forall d, In d docs -> Doc.hash d <> calculate_hash text)
  \/ (rule_duplicate docs text = [high_duplicate]
      /\ exists d, In d docs /\ Doc.hash d = calculate_hash text).
Proof.
  unfold rule_duplicate.
  destruct (existsb _ docs) eqn:E.
  - right. split; [reflexivity|].
    apply existsb_exists in E. destruct E as (d & Hin & Heq).
    exists d. split; [assumption | now apply String.eqb_eq].
  - left. split; [reflexivity|].
    intros d Hin Heq.
    assert (existsb (fun doc => String.eqb (Doc.hash doc) (calculate_hash text)) docs = true)
      as Habs; [|congruence].
    apply existsb_exists. exists d. split; [assumption | now apply String.eqb_eq].
Qed.

Lemma rule_gstin_cases (text : string) :
  (rule_gstin text = [] /\ exists g, extract_gstin text = Some g)
  \/ (rule_gstin text = [high_no_gstin] /\ extract_gstin text = None).
Proof.
  unfold rule_gstin.
  destruct (extract_gstin text) as [g|] eqn:E.
  - left. rewrite (extract_gstin_length _ _ E). simpl. eauto.
  - right. auto.
Qed.

Lemma dict_mem_standard (rate : string) :
  dict_mem rate GST_RATES = true <-> In rate standard_rates.
Proof.
  unfold dict_mem, GST_RATES, standard_rates. cbn [existsb fst In].
  rewrite !orb_true_iff, !String.eqb_eq. intuition congruence.
Qed.

Lemma rule_gst_rate_cases (text : string) :
  (rule_gst_rate text = [low_no_rate] /\ extract_gst_rate text = None)
  \/ (exists rate, extract_gst_rate text = Some rate /\ In rate standard_rates
                   /\ rule_gst_rate text = [])
  \/ (exists rate, extract_gst_rate text = Some rate /\ ~ In rate standard_rates
                   /\ rule_gst_rate text
                      = [("Medium", "Non-standard GST rate: " ++ rate ++ "%")]).
Proof.
  unfold rule_gst_rate.
  destruct (extract_gst_rate text) as [rate|]; [|left; auto].
  right. destruct (dict_mem rate GST_RATES) eqn:E.
  - left. exists rate. repeat split; auto. now apply dict_mem_standard.
  - right. exists rate. repeat split; auto.
    rewrite <- dict_mem_standard. congruence.
Qed.

Lemma check_calculations_message (text msg : string) :
  check_calculations text = (false, msg) ->
  msg = "Total amount not found"
  \/ exists a b c, msg = "Calculation mismatch: " ++ a ++ " + " ++ b ++ " ≠ " ++ c.
Proof.
  unfold check_calculations.
  destruct (Re.search true amount_regex text); [|intros [= <-]; left; reflexivity].
  destruct (Re.search true subtotal_regex text); [|discriminate].
  destruct (Re.search true tax_regex text); [|discriminate].
  destruct (negb _); [|discriminate].
  intros [= <-]. right. do 3 eexists. reflexivity.
Qed.

Lemma rule_calculation_cases (text : string) :
  rule_calculation text = []
  \/ rule_calculation text = [("High", "Total amount not found")]
  \/ exists a b c,
       rule_calculation text
       = [("High", "Calculation mismatch: " ++ a ++ " + " ++ b ++ " ≠ " ++ c)].
Proof.
  unfold rule_calculation.
  destruct (check_calculations text) as [ok msg] eqn:E.
  destruct ok; simpl; [left; reflexivity|].
  destruct (check_calculations_message _ _ E) as [->|(a & b & c & ->)].
  - right; left; reflexivity.
  - right; right. exists a, b, c. reflexivity.
Qed.

(** The program's sequence of appends is the concatenation of the four
    rules, unless the text is empty. *)
Lemma process_document_rules (docs : list Doc.t) (f : Upload.t) (ft : string) :
  let text := if String.eqb ft "pdf" then extract_text_from_pdf f
              else extract_text_from_image f in
  process_document docs f ft =
    if PyStr.truthy text
    then ((rule_duplicate docs text ++ rule_gstin text
             ++ rule_gst_rate text ++ rule_calculation text)%list, text)
    else ([critical_no_text], text).
Proof.
  intros text. unfold process_document. fold text.
  destruct (PyStr.truthy text); simpl; [|reflexivity].
  unfold rule_duplicate, rule_gstin, rule_gst_rate, rule_calculation.
  destruct (existsb _ docs);
    (destruct (extract_gstin text) as [g|] eqn:Eg;
     [ rewrite (extract_gstin_length _ _ Eg);
       assert (PyStr.truthy g = true) as ->
         by (apply truthy_iff, nonempty_of_length;
             rewrite (extract_gstin_length _ _ Eg); lia) | ]);
    (destruct (extract_gst_rate text) as [rate|] eqn:Er;
     [ assert (PyStr.truthy rate = true) as ->
         by (apply truthy_iff; eapply extract_gst_rate_nonempty; eassumption);
       unfold validate_gst_rate; destruct (dict_mem rate GST_RATES) | ]);
    destruct (check_calculations text) as [ok msg]; destruct ok; reflexivity.
Qed.

Lemma file_type_dispatch (uploaded_file : Upload.t) :
  let file_type := PyStr.split_last "/" (Upload.type uploaded_file) in
  (if String.eqb (if String.eqb file_type "pdf" then "pdf" else "image") "pdf"
   then extract_text_from_pdf uploaded_file
   else extract_text_from_image uploaded_file)
  = extracted_text uploaded_file.
Proof.
  unfold extracted_text. cbv zeta.
  destruct (String.eqb (PyStr.split_last "/" (Upload.type uploaded_file)) "pdf");
    reflexivity.
Qed.

(** The record stored for an upload. *)
Lemma document_record_spec (docs : list Doc.t) (up : Upload.t * Z) :
  let text := extracted_text (fst up) in
  document_record docs up =
    Doc.mk (Upload.name (fst up)) (calculate_hash text) text
      (if PyStr.truthy text
       then (rule_duplicate docs text ++ rule_gstin text
               ++ rule_gst_rate text ++ rule_calculation text)%list
       else [critical_no_text])
      (snd up).
Proof.
  destruct up as [f now]. unfold document_record.
  rewrite process_document_rules. simpl.
  pose proof (file_type_dispatch f) as E. simpl in E. rewrite E.
  destruct (PyStr.truthy (extracted_text f)); reflexivity.
Qed.

Lemma count_app (a : Anomaly) (l1 l2 : list Anomaly) :
  count a (l1 ++ l2) = (count a l1 + count a l2)%nat.
Proof.
  unfold count. rewrite filter_app, length_app. reflexivity.
Qed.

Ltac rule_shapes docs text :=
  let a := fresh "a" in let b := fresh "b" in let c := fresh "c" in
  let r := fresh "rate" in
  destruct (rule_gstin_cases text) as [[-> _]|[-> _]];
  destruct (rule_gst_rate_cases text)
    as [[-> _]|[(r & _ & _ & ->)|(r & _ & _ & ->)]];
  destruct (rule_calculation_cases text) as [->|[->|(a & b & c & ->)]].

(** Only the duplicate rule writes the duplicate entry. *)
Lemma count_duplicate_rules (docs : list Doc.t) (text : string) :
  count high_duplicate
    (rule_duplicate docs text ++ rule_gstin text
       ++ rule_gst_rate text ++ rule_calculation text)
  = count high_duplicate (rule_duplicate docs text).
Proof.
  rewrite count_app.
  assert (count high_duplicate
            (rule_gstin text ++ rule_gst_rate text ++ rule_calculation text) = 0%nat)
    as ->; [|lia].
  rule_shapes docs text; reflexivity.
Qed.

Lemma count_duplicate_record (docs : list Doc.t) (up : Upload.t * Z) :
  let d := document_record docs up in
  count high_duplicate (Doc.anomalies d)
  = if PyStr.truthy (Doc.text d)
       && existsb (fun doc => String.eqb (Doc.hash doc) (Doc.hash d)) docs
    then 1%nat else 0%nat.
Proof.
  simpl. rewrite document_record_spec. simpl.
  destruct (PyStr.truthy (extracted_text (fst up))); simpl; [|reflexivity].
  rewrite count_duplicate_rules. unfold rule_duplicate.
  destruct (existsb _ docs); reflexivity.
Qed.

Lemma in_count (a : Anomaly) (l : list Anomaly) :
  In a l -> (1 <= count a l)%nat.
Proof.
  unfold count. induction l as [|b l IH]; simpl; [contradiction|].
  intros [->|H].
  - unfold anomaly_eqb at 1. rewrite !String.eqb_refl. simpl. lia.
  - destruct (anomaly_eqb a b); simpl; auto with arith.
Qed.

(* ================================================================ *)
(** ** The processing loop and the session *)

Lemma process_documents_cons (docs : list Doc.t) (up : Upload.t * Z)
    (ups : list (Upload.t * Z)) :
  process_documents docs (up :: ups)
  = process_documents (docs ++ [document_record docs up]) ups.
Proof. reflexivity. Qed.

Lemma process_documents_snoc (docs : list Doc.t) (ups : list (Upload.t * Z))
    (up : Upload.t * Z) :
  process_documents docs (ups ++ [up])
  = (process_documents docs ups
       ++ [document_record (process_documents docs ups) up])%list.
Proof.
  unfold process_documents. rewrite fold_left_app. reflexivity.
Qed.

(** The store only grows, by one record per upload. *)
Lemma process_documents_extends (ups : list (Upload.t * Z)) :
  forall docs, exists new,
    process_documents docs ups = (docs ++ new)%list
    /\ List.length new = List.length ups.
Proof.
  induction ups as [|up ups IH]; intros docs.
  - exists []. rewrite app_nil_r. auto.
  - rewrite process_documents_cons.
    destruct (IH (docs ++ [document_record docs up])%list) as (new & E & L).
    exists (document_record docs up :: new). rewrite E, <- app_assoc.
    simpl. auto.
Qed.

(** Two uploads of one batch, with any uploads between them. *)
Lemma process_documents_two (docs : list Doc.t) (up1 up2 : Upload.t * Z)
    (mid : list (Upload.t * Z)) :
  exists rmid,
    List.length rmid = List.length mid
    /\ process_documents docs (up1 :: mid ++ [up2])
       = (docs ++ document_record docs up1 :: rmid
            ++ [document_record (docs ++ document_record docs up1 :: rmid) up2])%list.
Proof.
  rewrite process_documents_cons, process_documents_snoc.
  destruct (process_documents_extends mid (docs ++ [document_record docs up1])%list)
    as (rmid & E & L).
  exists rmid. split; [assumption|].
  rewrite E, <- !app_assoc. reflexivity.
Qed.

(** Every record of the store was built against the records before it. *)
Lemma process_documents_split (ups : list (Upload.t * Z)) :
  forall docs pre d post,
    process_documents docs ups = (pre ++ d :: post)%list ->
    (List.length docs <= List.length pre)%nat ->
    exists up, d = document_record pre up.
Proof.
  induction ups as [|up ups IH] using rev_ind; intros docs pre d post E L.
  - simpl in E. subst docs. rewrite length_app in L. simpl in L. lia.
  - rewrite process_documents_snoc in E.
    destruct post as [|z post] using rev_ind.
    + apply app_inj_tail in E. destruct E as [E1 E2]. subst pre d. eauto.
    + clear IHpost.
      change (pre ++ d :: post ++ [z])%list with (pre ++ (d :: post) ++ [z])%list in E.
      rewrite app_assoc in E.
      apply app_inj_tail in E. destruct E as [E _].
      eapply IH; eassumption.
Qed.

Lemma process_documents_invariant (P : Doc.t -> Prop) :
  (forall docs up, P (document_record docs up)) ->
  forall ups docs, Forall P docs -> Forall P (process_documents docs ups).
Proof.
  intros HP. induction ups as [|up ups IH]; intros docs H; [assumption|].
  rewrite process_documents_cons. apply IH.
  apply Forall_app. split; [assumption|]. constructor; [apply HP | constructor].
Qed.

(** What holds of every record when it is built holds of every record of
    every session. *)
Lemma session_invariant (P : Doc.t -> Prop) :
  (forall docs up, P (document_record docs up)) ->
  forall interactions d, In d (session interactions) -> P d.
Proof.
  intros HP interactions. unfold session.
  assert (forall docs, Forall P docs -> Forall P (fold_left rerun interactions docs)) as H.
  { induction interactions as [|i rest IH]; intros docs Hd; [assumption|].
    simpl. apply IH. destruct i as [ups|]; simpl.
    - destruct ups; [assumption|]. now apply process_documents_invariant.
    - constructor. }
  intros d Hin. specialize (H [] (Forall_nil P)).
  rewrite Forall_forall in H. auto.
Qed.

Lemma document_record_text (docs : list Doc.t) (up : Upload.t * Z) :
  Doc.text (document_record docs up) = extracted_text (fst up).
Proof. rewrite document_record_spec. reflexivity. Qed.

Lemma document_record_hash (docs : list Doc.t) (up : Upload.t * Z) :
  Doc.hash (document_record docs up) = calculate_hash (extracted_text (fst up)).
Proof. rewrite document_record_spec. reflexivity. Qed.

Lemma document_record_empty (docs : list Doc.t) (up : Upload.t * Z) :
  extracted_text (fst up) = "" ->
  document_record docs up
  = Doc.mk (Upload.name (fst up)) (calculate_hash "") "" [critical_no_text] (snd up).
Proof.
  intros E. rewrite document_record_spec. simpl. rewrite E. reflexivity.
Qed.

(** A record carries the duplicate entry only if an earlier record of the
    store has its hash. *)
Lemma duplicate_entry_source (docs : list Doc.t) (up : Upload.t * Z) :
  In high_duplicate (Doc.anomalies (document_record docs up)) ->
  exists d', In d' docs /\ Doc.hash d' = Doc.hash (document_record docs up).
Proof.
  intros H. apply in_count in H.
  pose proof (count_duplicate_record docs up) as C. simpl in C. rewrite C in H.
  destruct (PyStr.truthy _); simpl in H; [|lia].
  destruct (existsb _ docs) eqn:E; [|lia].
  apply existsb_exists in E. destruct E as (d' & Hin & Heq).
  exists d'. split; [assumption | now apply String.eqb_eq].
Qed.

(** Only the rate rule writes entries about the GST rate. *)
Lemma filter_rate_rules (docs : list Doc.t) (text : string) :
  filter is_rate_anomaly
    (rule_duplicate docs text ++ rule_gstin text
       ++ rule_gst_rate text ++ rule_calculation text)
  = rule_gst_rate text.
Proof.
  destruct (rule_duplicate_cases docs text) as [[-> _]|[-> _]];
    rule_shapes docs text; reflexivity.
Qed.

(** No rule writes an entry about the format of a GSTIN. *)
Lemma filter_invalid_gstin_rules (docs : list Doc.t) (text : string) :
  filter is_invalid_gstin_anomaly
    (rule_duplicate docs text ++ rule_gstin text
       ++ rule_gst_rate text ++ rule_calculation text)
  = [].
Proof.
  destruct (rule_duplicate_cases docs text) as [[-> _]|[-> _]];
    rule_shapes docs text; reflexivity.
Qed.

Lemma no_invalid_gstin_record (docs : list Doc.t) (up : Upload.t * Z)
    (severity g : string) :
  ~ In (severity, "Invalid GSTIN format: " ++ g) (Doc.anomalies (document_record docs up)).
Proof.
  intros H.
  assert (In (severity, "Invalid GSTIN format: " ++ g)
             (filter is_invalid_gstin_anomaly (Doc.anomalies (document_record docs up))))
    as F by (apply filter_In; split; [assumption | reflexivity]).
  rewrite document_record_spec in F. simpl in F.
  destruct (PyStr.truthy _).
  - rewrite filter_invalid_gstin_rules in F. contradiction.
  - simpl in F. contradiction.
Qed.

(* ================================================================ *)
(** ** The claims of the specification *)

(** C1, as amended: for every document whose extracted text is not empty,
    the anomaly list is the contribution of the duplicate rule, then of
    the GSTIN rule, then of the GST rate rule, then of the calculation
    rule: all four are evaluated and none suppresses another. When the
    extracted text is empty none of them is evaluated and the list is the
    single Critical extraction entry. *)
Theorem C1_rules_run_on_nonempty_text
    (docs : list Doc.t) (f : Upload.t) (ft : string)
    (anomalies : list Anomaly) (text : string) :
  process_document docs f ft = (anomalies, text) ->
  (text <> "" ->
   anomalies = (rule_duplicate docs text ++ rule_gstin text
                  ++ rule_gst_rate text ++ rule_calculation text)%list)
  /\ (text = "" -> anomalies = [critical_no_text]).
Proof.
  rewrite process_document_rules.
  destruct (PyStr.truthy _) eqn:T; intros [= <- <-]; split; intros H.
  - reflexivity.
  - rewrite H in T. discriminate.
  - apply truthy_iff in H. congruence.
  - reflexivity.
Qed.


(** C5: when both extraction paths of a PDF raise, or the OCR of an image
    raises, the extractor returns the empty text instead of raising; an
    upload whose extracted text is empty is stored with the empty text,
    the hash of the empty text and the single Critical entry; the loop
    then goes on with the rest of the batch, and every upload of the batch
    gets its record. *)
Theorem C5_extraction_failure_is_recorded :
  (forall f, pdfplumber_open f = Raises -> fitz_ocr_pages f = Raises ->
             extract_text_from_pdf f = "")
  /\ (forall f, image_ocr f = Raises -> extract_text_from_image f = "")
  /\ (forall docs up rest,
        extracted_text (fst up) = "" ->
        process_documents docs (up :: rest)
        = process_documents
            (docs ++ [Doc.mk (Upload.name (fst up)) (calculate_hash "") ""
                        [critical_no_text] (snd up)])
            rest
        /\ List.length (process_documents docs (up :: rest))
           = (List.length docs + 1 + List.length rest)%nat).
Proof.
  split; [|split].
  - intros f H1 H2. unfold extract_text_from_pdf. rewrite H1, H2. reflexivity.
  - intros f H. unfold extract_text_from_image. rewrite H. reflexivity.
  - intros docs up rest E. split.
    + rewrite process_documents_cons, (document_record_empty _ _ E). reflexivity.
    + destruct (process_documents_extends (up :: rest) docs) as (new & -> & L).
      rewrite length_app, L. simpl. lia.
Qed.

(** C6: the content hash is a function of the text: equal texts have equal
    digests, and in every session every stored record's hash is the digest
    of the text stored with it. *)
Theorem C6_hash_is_function_of_text :
  (forall T, calculate_hash T = calculate_hash T)
  /\ (forall T1 T2, T1 = T2 -> calculate_hash T1 = calculate_hash T2)
  /\ (forall interactions d,
        In d (session interactions) -> Doc.hash d = calculate_hash (Doc.text d))
  /\ (forall interactions d1 d2,
        In d1 (session interactions) -> In d2 (session interactions) ->
        Doc.text d1 = Doc.text d2 -> Doc.hash d1 = Doc.hash d2).
Proof.
  assert (forall interactions d,
             In d (session interactions) -> Doc.hash d = calculate_hash (Doc.text d)) as H.
  { apply session_invariant. intros docs up.
    rewrite document_record_hash, document_record_text. reflexivity. }
  repeat split; auto.
  - intros T1 T2 ->. reflexivity.
  - intros interactions d1 d2 H1 H2 E.
    rewrite (H _ _ H1), (H _ _ H2), E. reflexivity.
Qed.

(** C7: for a document whose extracted text is not empty, the entries of
    its anomaly list about the GST rate are: the Low entry "GST rate not
    specified" when no rate is found; the Medium entry "Non-standard GST
    rate: <value>%" when the digit string found is none of 0, 5, 12, 18,
    28; and none when it is one of them. *)
Theorem C7_gst_rate_rule
    (docs : list Doc.t) (f : Upload.t) (ft : string)
    (anomalies : list Anomaly) (text : string) :
  process_document docs f ft = (anomalies, text) ->
  text <> "" ->
  (extract_gst_rate text = None ->
   filter is_rate_anomaly anomalies = [low_no_rate])
  /\ (forall rate, extract_gst_rate text = Some rate -> ~ In rate standard_rates ->
       filter is_rate_anomaly anomalies
       = [("Medium", "Non-standard GST rate: " ++ rate ++ "%")])
  /\ (forall rate, extract_gst_rate text = Some rate -> In rate standard_rates ->
       filter is_rate_anomaly anomalies = []).
Proof.
  rewrite process_document_rules.
  destruct (PyStr.truthy _) eqn:T; intros [= <- <-] HT;
    [|apply truthy_iff in HT; congruence].
  rewrite filter_rate_rules.
  destruct (rule_gst_rate_cases
              (if String.eqb ft "pdf" then extract_text_from_pdf f
               else extract_text_from_image f))
    as [[-> E]|[(r & E & Hin & ->)|(r & E & Hin & ->)]];
    (split; [|split]); intros; try congruence;
    assert (rate = r) as -> by congruence;
    first [contradiction | reflexivity].
Qed.

(** C8: after "clear all data" the store is empty, so processing a batch
    gives exactly the records it gives in a new session, whatever was
    stored before the clear; the store then holds one record per upload
    of the batch, and a record carries the duplicate entry only if a
    record before it in this store has the same hash. *)
Theorem C8_clear_forgets_earlier_documents
    (docs : list Doc.t) (batch : list (Upload.t * Z)) :
  rerun docs ClearAllData = []
  /\ rerun (rerun docs ClearAllData) (ProcessDocuments batch)
     = session [ProcessDocuments batch]
  /\ List.length (rerun (rerun docs ClearAllData) (ProcessDocuments batch))
     = List.length batch
  /\ (forall pre d post,
        rerun (rerun docs ClearAllData) (ProcessDocuments batch)
        = (pre ++ d :: post)%list ->
        In high_duplicate (Doc.anomalies d) ->
        exists d', In d' pre /\ Doc.hash d' = Doc.hash d).
Proof.
  assert (rerun (rerun docs ClearAllData) (ProcessDocuments batch)
          = process_documents [] batch) as E
    by (destruct batch; reflexivity).
  rewrite E. repeat split.
  - destruct batch; reflexivity.
  - destruct (process_documents_extends batch []) as (new & -> & L). exact L.
  - intros pre d post H Hdup.
    destruct (process_documents_split batch [] pre d post H) as (up & ->);
      [simpl; lia|].
    now apply duplicate_entry_source.
Qed.

(** C9: every value returned by the GSTIN extraction has exactly 15
    characters, so the branch for another length is never taken: no
    document processed, and no record of any session, has an entry
    "Invalid GSTIN format: ...". *)
Theorem C9_invalid_gstin_branch_unreachable :
  (forall text g, extract_gstin text = Some g -> String.length g = 15%nat)
  /\ (forall docs f ft severity g,
        ~ In (severity, "Invalid GSTIN format: " ++ g)
             (fst (process_document docs f ft)))
  /\ (forall interactions d severity g,
        In d (session interactions) ->
        ~ In (severity, "Invalid GSTIN format: " ++ g) (Doc.anomalies d)).
Proof.
  split; [exact extract_gstin_length|]. split.
  - intros docs f ft severity g H.
    assert (In (severity, "Invalid GSTIN format: " ++ g)
               (filter is_invalid_gstin_anomaly (fst (process_document docs f ft))))
      as F by (apply filter_In; split; [assumption | reflexivity]).
    rewrite process_document_rules in F.
    destruct (PyStr.truthy _); simpl in F.
    + rewrite filter_invalid_gstin_rules in F. contradiction.
    + contradiction.
  - intros interactions d severity g H.
    revert d H. apply session_invariant. intros docs up.
    apply no_invalid_gstin_record.
Qed.

(** C10: when two uploads of a session both have the empty extracted text,
    both records are stored with the hash of the empty string, and the
    anomaly list of the second is exactly the single Critical extraction
    entry, without a duplicate entry, although the store already holds a
    record with its hash. *)
Theorem C10_empty_text_never_duplicate
    (docs : list Doc.t) (up1 up2 : Upload.t * Z) (mid : list (Upload.t * Z)) :
  extracted_text (fst up1) = "" ->
  extracted_text (fst up2) = "" ->
  exists r1 rmid r2,
    process_documents docs (up1 :: mid ++ [up2]) = (docs ++ r1 :: rmid ++ [r2])%list
    /\ List.length rmid = List.length mid
    /\ Doc.text r1 = "" /\ Doc.text r2 = ""
    /\ Doc.hash r1 = "d41d8cd98f00b204e9800998ecf8427e"
    /\ Doc.hash r2 = Doc.hash r1
    /\ Doc.anomalies r2 = [critical_no_text]
    /\ count high_duplicate (Doc.anomalies r2) = 0%nat.
Proof.
  intros E1 E2.
  destruct (process_documents_two docs up1 up2 mid) as (rmid & L & E).
  exists (document_record docs up1), rmid,
    (document_record (docs ++ document_record docs up1 :: rmid) up2).
  rewrite (document_record_empty _ _ E2), (document_record_empty _ _ E1) in *.
  simpl.
  split; [assumption|]. split; [assumption|].
  split; [reflexivity|]. split; [reflexivity|].
  split; [vm_compute; reflexivity|].
  split; [reflexivity|]. split; reflexivity.
Qed.

(* ================================================================ *)
(** ** Further properties: strings *)

Lemma append_length (a b : string) :
  String.length (a ++ b) = (String.length a + String.length b)%nat.
Proof. induction a as [|c a IH]; simpl; [reflexivity | now rewrite IH]. Qed.

Lemma append_assoc (a b c : string) : (a ++ b) ++ c = a ++ (b ++ c).
Proof. induction a as [|x a IH]; simpl; [reflexivity | now rewrite IH]. Qed.

Lemma append_nil_r (a : string) : a ++ "" = a.
Proof. induction a as [|x a IH]; simpl; [reflexivity | now rewrite IH]. Qed.

Lemma take_all (n : nat) (s : string) :
  (String.length s <= n)%nat -> PyStr.take n s = s.
Proof.
  revert s; induction n as [|n IH]; intros [|c s] H; simpl in *; try reflexivity.
  - lia.
  - f_equal. apply IH. lia.
Qed.

Lemma take_app_exact (w s : string) :
  PyStr.take (String.length (w ++ s) - String.length s) (w ++ s) = w.
Proof.
  rewrite append_length.
  replace (String.length w + String.length s - String.length s)%nat
    with (String.length w) by lia.
  induction w as [|c w IH]; simpl.
  - destruct s; reflexivity.
  - now rewrite IH.
Qed.

Lemma all_chars_app (p : ascii -> bool) (a b : string) :
  PyStr.all_chars p (a ++ b) = PyStr.all_chars p a && PyStr.all_chars p b.
Proof.
  induction a as [|c a IH]; simpl; [reflexivity|].
  rewrite IH, andb_assoc. reflexivity.
Qed.

Lemma all_chars_impl (p q : ascii -> bool) (s : string) :
  (forall c, p c = true -> q c = true) ->
  PyStr.all_chars p s = true -> PyStr.all_chars q s = true.
Proof.
  intros H. induction s as [|c s IH]; simpl; [reflexivity|].
  rewrite !andb_true_iff. intros [Hc Hs]. auto.
Qed.

(* ================================================================ *)
(** ** Further properties: the stored records *)

Lemma rules_length (docs : list Doc.t) (text : string) :
  (List.length (rule_duplicate docs text ++ rule_gstin text
                  ++ rule_gst_rate text ++ rule_calculation text) <= 4)%nat.
Proof.
  destruct (rule_duplicate_cases docs text) as [[-> _]|[-> _]];
    rule_shapes docs text; simpl; lia.
Qed.

Lemma rules_severities (docs : list Doc.t) (text : string) :
  Forall (fun a : Anomaly => In (fst a) ["High"; "Medium"; "Low"])
    (rule_duplicate docs text ++ rule_gstin text
       ++ rule_gst_rate text ++ rule_calculation text).
Proof.
  destruct (rule_duplicate_cases docs text) as [[-> _]|[-> _]];
    rule_shapes docs text;
    repeat (apply Forall_cons || apply Forall_nil); simpl; auto 6.
Qed.

Lemma document_record_shape (docs : list Doc.t) (up : Upload.t * Z) :
  record_shape (document_record docs up).
Proof.
  unfold record_shape. rewrite document_record_spec. simpl.
  destruct (PyStr.truthy (extracted_text (fst up))) eqn:T.
  - right. split; [now apply truthy_iff|].
    split; [apply rules_length | apply rules_severities].
  - left. split; [|reflexivity].
    destruct (extracted_text (fst up)); [reflexivity | discriminate].
Qed.

Lemma session_shapes (interactions : list Interaction) :
  Forall record_shape (session interactions).
Proof.
  apply Forall_forall. apply session_invariant. apply document_record_shape.
Qed.

Lemma count_severity_cons (severity : string) (d : Doc.t) (docs : list Doc.t) :
  count_severity severity (d :: docs)
  = (List.length (filter (fun a : Anomaly => String.eqb (fst a) severity) (Doc.anomalies d))
     + count_severity severity docs)%nat.
Proof.
  unfold count_severity. simpl. rewrite filter_app, length_app. reflexivity.
Qed.

Lemma no_critical_among (l : list Anomaly) :
  Forall (fun a : Anomaly => In (fst a) ["High"; "Medium"; "Low"]) l ->
  filter (fun a : Anomaly => String.eqb (fst a) "Critical") l = [].
Proof.
  induction 1 as [|a l Ha _ IH]; [reflexivity|].
  cbn [filter]. rewrite IH.
  destruct Ha as [<-|[<-|[<-|[]]]]; reflexivity.
Qed.

Lemma counters_of_shapes (docs : list Doc.t) :
  Forall record_shape docs ->
  critical_anomalies docs
  = List.length (filter (fun d => negb (PyStr.truthy (Doc.text d))) docs)
  /\ (critical_anomalies docs + high_anomalies docs <= total_anomalies docs)%nat
  /\ (total_anomalies docs <= 4 * total_docs docs)%nat.
Proof.
  unfold critical_anomalies, high_anomalies, total_anomalies, total_docs.
  induction 1 as [|d docs Hd _ (IH1 & IH2 & IH3)].
  - repeat split; vm_compute; lia.
  - rewrite !count_severity_cons.
    cbn [map list_sum filter List.length].
    destruct Hd as [(Ht & Ha)|(Ht & Hlen & Hsev)].
    + rewrite Ht, Ha. simpl. rewrite IH1. repeat split; lia.
    + rewrite (no_critical_among _ Hsev).
      apply truthy_iff in Ht. rewrite Ht. simpl.
      pose proof (filter_length_le (fun a : Anomaly => String.eqb (fst a) "High")
                    (Doc.anomalies d)).
      repeat split; lia.
Qed.

(** X1: in every session each stored record has one of two shapes: its text
    is empty and its anomaly list is exactly the Critical extraction entry,
    or its text is not empty and its list has at most four entries, each of
    severity High, Medium or Low. *)
Theorem X1_stored_records_have_two_shapes
    (interactions : list Interaction) (d : Doc.t) :
  In d (session interactions) ->
  (Doc.text d = "" /\ Doc.anomalies d = [critical_no_text])
  \/ (Doc.text d <> ""
      /\ (List.length (Doc.anomalies d) <= 4)%nat
      /\ Forall (fun a : Anomaly => In (fst a) ["High"; "Medium"; "Low"])
                (Doc.anomalies d)).
Proof.
  intros H. pose proof (session_shapes interactions) as F.
  rewrite Forall_forall in F. exact (F d H).
Qed.

(** X2: the summary counters of the display, in every session: the count of
    Critical anomalies is the number of stored documents with empty text;
    Critical and High together never exceed the total of anomalies; and the
    total is at most four per document. *)
Theorem X2_summary_counters (interactions : list Interaction) :
  critical_anomalies (session interactions)
  = List.length (filter (fun d => negb (PyStr.truthy (Doc.text d)))
                        (session interactions))
  /\ (critical_anomalies (session interactions) + high_anomalies (session interactions)
      <= total_anomalies (session interactions))%nat
  /\ (total_anomalies (session interactions)
      <= 4 * total_docs (session interactions))%nat.
Proof.
  apply counters_of_shapes, session_shapes.
Qed.

Lemma process_documents_fields (ups : list (Upload.t * Z)) :
  forall docs, exists new,
    process_documents docs ups = (docs ++ new)%list
    /\ map Doc.name new = map (fun up => Upload.name (fst up)) ups
    /\ map Doc.text new = map (fun up => extracted_text (fst up)) ups
    /\ map Doc.hash new = map (fun up => calculate_hash (extracted_text (fst up))) ups
    /\ map Doc.timestamp new = map snd ups.
Proof.
  induction ups as [|up ups IH]; intros docs.
  - exists []. rewrite app_nil_r. repeat split; reflexivity.
  - rewrite process_documents_cons.
    destruct (IH (docs ++ [document_record docs up])%list)
      as (new & E & Hn & Ht & Hh & Hs).
    exists (document_record docs up :: new).
    rewrite E, <- app_assoc. cbn [map app].
    rewrite Hn, Ht, Hh, Hs, document_record_spec. repeat split; reflexivity.
Qed.

(** X3: processing a batch leaves the records already stored untouched and
    appends one record per upload, in upload order, carrying the upload's
    name, its extracted text, the hash of that text and the clock reading. *)
Theorem X3_store_grows_in_upload_order
    (docs : list Doc.t) (uploaded_files : list (Upload.t * Z)) :
  exists new,
    process_documents docs uploaded_files = (docs ++ new)%list
    /\ map Doc.name new = map (fun up => Upload.name (fst up)) uploaded_files
    /\ map Doc.text new = map (fun up => extracted_text (fst up)) uploaded_files
    /\ map Doc.hash new
       = map (fun up => calculate_hash (extracted_text (fst up))) uploaded_files
    /\ map Doc.timestamp new = map snd uploaded_files.
Proof.
  apply process_documents_fields.
Qed.

(** X4: pressing "Process Documents" on one batch and then on another gives
    the store that one press on the two batches put together gives; an
    empty batch changes nothing. *)
Theorem X4_batches_compose
    (docs : list Doc.t) (batch1 batch2 : list (Upload.t * Z)) :
  rerun (rerun docs (ProcessDocuments batch1)) (ProcessDocuments batch2)
  = rerun docs (ProcessDocuments (batch1 ++ batch2))
  /\ rerun docs (ProcessDocuments []) = docs.
Proof.
  split; [|reflexivity].
  destruct batch1 as [|u1 b1]; [reflexivity|].
  destruct batch2 as [|u2 b2].
  - rewrite app_nil_r. reflexivity.
  - cbn [rerun app]. unfold process_documents.
    change (u1 :: (b1 ++ u2 :: b2)%list) with ((u1 :: b1) ++ u2 :: b2)%list.
    rewrite fold_left_app. reflexivity.
Qed.

(** X5: the extract of a document's text shown in the results never exceeds
    1003 characters; it is the text itself up to 1000 characters, and the
    first 1000 characters followed by "..." beyond. *)
Theorem X5_shown_text_is_bounded (text : string) :
  (String.length (shown_text text) <= 1003)%nat
  /\ ((String.length text <= 1000)%nat -> shown_text text = text)
  /\ ((1000 < String.length text)%nat ->
      shown_text text = PyStr.take 1000 text ++ "..."
      /\ String.length (shown_text text) = 1003%nat).
Proof.
  unfold shown_text.
  destruct (Nat.ltb_spec 1000 (String.length text)) as [L|L].
  - assert (String.length (PyStr.take 1000 text ++ "...") = 1003%nat) as E.
    { rewrite append_length, take_length.
      change (String.length "...") with 3%nat. lia. }
    repeat split; try lia; auto.
  - rewrite append_nil_r, (take_all _ _ L).
    repeat split; try lia; auto.
Qed.

(* ================================================================ *)
(** ** Further properties: what the patterns match *)

Lemma rep_sound {R : Type} (ic : bool) (a : Re.cset) (s : string) :
  forall (lo : nat) (hi : option nat) (k : string -> option R) (x : R),
    Re.rep ic a lo hi s k = Some x ->
    exists w s1,
      s = w ++ s1
      /\ PyStr.all_chars (Re.accepts ic a) w = true
      /\ (lo <= String.length w)%nat
      /\ k s1 = Some x.
Proof.
  induction s as [|c s IH]; intros lo hi k x H; simpl in H.
  - destruct lo; [|discriminate].
    exists "", "". repeat split; auto.
  - assert (Hstop : match lo with O => k (String c s) | S _ => None end = Some x ->
                    exists w s1, String c s = w ++ s1
                      /\ PyStr.all_chars (Re.accepts ic a) w = true
                      /\ (lo <= String.length w)%nat /\ k s1 = Some x).
    { intros Hs. destruct lo; [|discriminate].
      exists "", (String c s). repeat split; auto. }
    destruct (Re.accepts ic a c && negb match hi with Some O => true | _ => false end) eqn:Hc;
      [|auto].
    destruct (Re.rep ic a (Nat.pred lo) (option_map Nat.pred hi) s k) as [r|] eqn:Hr; [|auto].
    inversion H; subst r.
    destruct (IH _ _ _ _ Hr) as (w & s1 & Hs & Hall & Hlo & Hk).
    apply andb_true_iff in Hc. destruct Hc as [Hc _].
    exists (String c w), s1. repeat split; auto.
    + simpl. now rewrite Hs.
    + simpl. now rewrite Hc, Hall.
    + simpl. lia.
Qed.

Lemma run_sound {R : Type} (ic : bool) (r : Re.regex) :
  forall (s : string) (cap : option string)
         (k : string -> option string -> option R) (x : R),
    Re.run ic r s cap k = Some x ->
    exists w s1 cap1,
      s = w ++ s1
      /\ PyStr.all_chars (Re.alphabet ic r) w = true
      /\ k s1 cap1 = Some x.
Proof.
  induction r as [|a|a lo hi|r1 IH1 r2 IH2|r1 IH1]; intros s cap k x H; simpl in H.
  - exists "", s, cap. repeat split; auto.
  - destruct s as [|c s]; [discriminate|].
    destruct (Re.accepts ic a c) eqn:Hc; [|discriminate].
    exists (String c ""), s, cap. repeat split; auto.
    simpl. now rewrite Hc.
  - destruct (rep_sound _ _ _ _ _ _ _ H) as (w & s1 & Hs & Hall & _ & Hk).
    exists w, s1, cap. repeat split; auto.
  - destruct (IH1 _ _ _ _ H) as (w1 & s1 & cap1 & Hs1 & Hall1 & Hk1).
    destruct (IH2 _ _ _ _ Hk1) as (w2 & s2 & cap2 & Hs2 & Hall2 & Hk2).
    exists (w1 ++ w2), s2, cap2. repeat split; auto.
    + rewrite append_assoc, <- Hs2. exact Hs1.
    + rewrite all_chars_app, andb_true_iff. split.
      * revert Hall1. apply all_chars_impl. intros c Hc. simpl. now rewrite Hc.
      * revert Hall2. apply all_chars_impl. intros c Hc. simpl.
        rewrite Hc. apply orb_true_r.
  - destruct (IH1 _ _ _ _ H) as (w & s1 & cap1 & Hs & Hall & Hk).
    eexists w, s1, _. repeat split; [exact Hs | exact Hall | exact Hk].
Qed.

(** A match is a piece of the input, made of characters of the pattern. *)
Lemma match_at_sound (ic : bool) (r : Re.regex) (s : string) (m : Re.Match) :
  Re.match_at ic r s = Some m ->
  s = Re.group0 m ++ Re.rest m
  /\ PyStr.all_chars (Re.alphabet ic r) (Re.group0 m) = true.
Proof.
  unfold Re.match_at. intros H.
  destruct (run_sound _ _ _ _ _ _ H) as (w & s1 & cap1 & Hs & Hall & Hk).
  injection Hk as <-. simpl. subst s. rewrite take_app_exact. auto.
Qed.

Lemma search_position (ic : bool) (r : Re.regex) (s : string) (m : Re.Match) :
  Re.search ic r s = Some m ->
  exists pre s', s = pre ++ s' /\ Re.match_at ic r s' = Some m.
Proof.
  induction s as [|c s IH]; simpl; intros H.
  - destruct (Re.match_at ic r "") eqn:E; [|discriminate].
    exists "", "". split; [reflexivity | congruence].
  - destruct (Re.match_at ic r (String c s)) eqn:E.
    + exists "", (String c s). split; [reflexivity | congruence].
    + destruct (IH H) as (pre & s' & -> & Hm).
      exists (String c pre), s'. auto.
Qed.

Lemma search_complete (ic : bool) (r : Re.regex) (pre s' : string) :
  Re.match_at ic r s' <> None -> Re.search ic r (pre ++ s') <> None.
Proof.
  intros H. induction pre as [|c pre IH]; simpl.
  - destruct s' as [|c s']; simpl; destruct (Re.match_at ic r _); congruence.
  - destruct (Re.match_at ic r (String c (pre ++ s'))); [discriminate | exact IH].
Qed.

Lemma findall_from_position (ic : bool) (r : Re.regex) (s : string) :
  forall (skip : nat) (x : string),
    In x (Re.findall_from ic r skip s) ->
    exists pre s' m, s = pre ++ s' /\ Re.match_at ic r s' = Some m /\ Re.group0 m = x.
Proof.
  induction s as [|c s IH]; intros skip x H.
  - destruct skip; simpl in H; [|contradiction].
    destruct (Re.match_at ic r "") eqn:E; simpl in H; [|contradiction].
    destruct H as [<-|[]]. exists "", "". eauto.
  - assert (forall k, In x (Re.findall_from ic r k s) ->
              exists pre s' m, String c s = pre ++ s'
                /\ Re.match_at ic r s' = Some m /\ Re.group0 m = x) as Hrec.
    { intros k Hk. destruct (IH _ _ Hk) as (pre & s' & m & -> & Hm & Hg).
      exists (String c pre), s', m. auto. }
    destruct skip; simpl in H; [|eauto].
    destruct (Re.match_at ic r (String c s)) eqn:E; [|eauto].
    destruct H as [<-|H]; [|eauto].
    exists "", (String c s). eauto.
Qed.

Lemma upper_ascii_idempotent (c : ascii) :
  PyStr.upper_ascii (PyStr.upper_ascii c) = PyStr.upper_ascii c.
Proof.
  destruct c as [[] [] [] [] [] [] [] []]; reflexivity.
Qed.

Lemma upper_idempotent (s : string) : PyStr.upper (PyStr.upper s) = PyStr.upper s.
Proof.
  induction s as [|c s IH]; simpl; [reflexivity|].
  now rewrite upper_ascii_idempotent, IH.
Qed.

Lemma upper_alnum_fixed (c : ascii) :
  is_upper_alnum c = true -> PyStr.upper_ascii c = c.
Proof.
  destruct c as [[] [] [] [] [] [] [] []]; vm_compute; intros H;
    first [reflexivity | discriminate H].
Qed.

Lemma upper_fixed (s : string) :
  PyStr.all_chars is_upper_alnum s = true -> PyStr.upper s = s.
Proof.
  induction s as [|c s IH]; simpl; [reflexivity|].
  rewrite andb_true_iff. intros [Hc Hs].
  now rewrite (upper_alnum_fixed _ Hc), (IH Hs).
Qed.

Lemma gstin_alphabet (c : ascii) :
  Re.alphabet false gstin_regex c = true -> is_upper_alnum c = true.
Proof.
  destruct c as [[] [] [] [] [] [] [] []]; vm_compute; exact (fun H => H).
Qed.

Lemma accepts_percent (c : ascii) :
  Re.accepts true (Re.Lit "%") c = true -> c = "%"%char.
Proof.
  destruct c as [[] [] [] [] [] [] [] []]; vm_compute; intros H;
    first [reflexivity | discriminate H].
Qed.

(** X6: a GSTIN returned by the extraction is a 15-character piece of the
    upper-cased text, made of digits and capital letters only, so it is in
    upper case whatever the case of the document; and the extraction does
    not depend on the case of the text. *)
Theorem X6_gstin_is_piece_of_uppercased_text (text : string) :
  (forall g, extract_gstin text = Some g ->
     (exists pre post, PyStr.upper text = pre ++ g ++ post)
     /\ String.length g = 15%nat
     /\ PyStr.all_chars is_upper_alnum g = true
     /\ PyStr.upper g = g)
  /\ extract_gstin (PyStr.upper text) = extract_gstin text.
Proof.
  split.
  - intros g H. pose proof (extract_gstin_length _ _ H) as L.
    unfold extract_gstin, Re.findall in H.
    destruct (Re.findall_from false gstin_regex 0 (PyStr.upper text)) as [|x xs] eqn:E;
      [discriminate|].
    injection H as ->.
    destruct (findall_from_position false gstin_regex (PyStr.upper text) 0 g)
      as (pre & s' & m & Hs & Hm & <-).
    { rewrite E. left; reflexivity. }
    destruct (match_at_sound _ _ _ _ Hm) as (Hs' & Hall).
    assert (PyStr.all_chars is_upper_alnum (Re.group0 m) = true) as A.
    { revert Hall. apply all_chars_impl. exact gstin_alphabet. }
    repeat split; auto.
    + exists pre, (Re.rest m). rewrite Hs, Hs'. reflexivity.
    + now apply upper_fixed.
  - unfold extract_gstin. rewrite upper_idempotent. reflexivity.
Qed.

Lemma rate_match_shape (s : string) (m : Re.Match) :
  Re.match_at true rate_regex s = Some m ->
  exists w0 rate post,
    s = w0 ++ rate ++ "%" ++ post
    /\ Re.group1 m = Some rate
    /\ PyStr.all_chars Re.is_digit rate = true
    /\ (1 <= String.length rate)%nat.
Proof.
  unfold Re.match_at. intros Hm.
  change rate_regex with
    (Re.Cat ([Re.Str "GST"; Re.Star Re.Space; Re.Opt (Re.Lit "@"); Re.Star Re.Space]
             ++ [Re.Group (Re.Plus Re.Digit); Re.Chr (Re.Lit "%")])) in Hm.
  rewrite run_Cat_app in Hm.
  destruct (run_sound _ _ _ _ _ _ Hm) as (w0 & s1 & cap1 & Hs & _ & Hk). clear Hm.
  cbn [Re.Cat Re.run Re.Plus] in Hk.
  destruct (rep_sound _ _ _ _ _ _ _ Hk) as (w & s2 & Hs1 & Hall & Hlo & Hk2). clear Hk.
  destruct s2 as [|c s2]; [discriminate|].
  destruct (Re.accepts true (Re.Lit "%") c) eqn:Hc; [|discriminate].
  apply accepts_percent in Hc. subst c.
  injection Hk2 as <-. simpl.
  exists w0, w, s2. subst s1. rewrite take_app_exact. repeat split; auto.
Qed.

(** X7: a GST rate returned by the extraction is a non-empty run of decimal
    digits that stands in the text right before a percent sign. *)
Theorem X7_rate_is_digits_before_percent (text rate : string) :
  extract_gst_rate text = Some rate ->
  rate <> ""
  /\ PyStr.all_chars Re.is_digit rate = true
  /\ exists pre post, text = pre ++ rate ++ "%" ++ post.
Proof.
  unfold extract_gst_rate. intros H.
  destruct (Re.search true rate_regex text) as [m|] eqn:E; [|discriminate].
  destruct (search_position _ _ _ _ E) as (pre & s & Hs & Hm).
  destruct (rate_match_shape _ _ Hm) as (w0 & r & post & Hs' & Hg & Hall & Hlen).
  assert (r = rate) as -> by congruence.
  split; [now apply nonempty_of_length|]. split; [assumption|].
  exists (pre ++ w0), post. rewrite Hs, Hs', append_assoc. reflexivity.
Qed.

(* ================================================================ *)
(** ** Further properties: the calculation check *)

Lemma rep_mono {R R' : Type} (ic : bool) (a : Re.cset) (s : string) :
  forall (lo : nat) (hi : option nat)
         (k : string -> option R) (k' : string -> option R'),
    (forall s1, k s1 <> None -> k' s1 <> None) ->
    Re.rep ic a lo hi s k <> None -> Re.rep ic a lo hi s k' <> None.
Proof.
  induction s as [|c s IH]; intros lo hi k k' H; simpl.
  - destruct lo; auto.
  - destruct (Re.accepts ic a c && negb match hi with Some O => true | _ => false end);
      [|destruct lo; auto].
    specialize (IH (Nat.pred lo) (option_map Nat.pred hi) k k' H).
    destruct (Re.rep ic a (Nat.pred lo) (option_map Nat.pred hi) s k);
      destruct (Re.rep ic a (Nat.pred lo) (option_map Nat.pred hi) s k');
      intros Hk; try discriminate.
    + exfalso. apply IH; [discriminate | reflexivity].
    + destruct lo; auto.
Qed.

(** Whether a pattern matches does not depend on what is done with the
    match afterwards, as long as that succeeds wherever it did. *)
Lemma run_mono {R R' : Type} (ic : bool) (r : Re.regex) :
  forall (s : string) (cap cap' : option string)
         (k : string -> option string -> option R)
         (k' : string -> option string -> option R'),
    (forall s1 c c', k s1 c <> None -> k' s1 c' <> None) ->
    Re.run ic r s cap k <> None -> Re.run ic r s cap' k' <> None.
Proof.
  induction r as [|a|a lo hi|r1 IH1 r2 IH2|r1 IH1]; intros s cap cap' k k' H; simpl.
  - apply H.
  - destruct s as [|c s]; [auto|]. destruct (Re.accepts ic a c); [apply H | auto].
  - apply rep_mono. intros s1. apply H.
  - apply IH1. intros s1 c c'. apply IH2. exact H.
  - apply IH1. intros s1 c c'. apply H.
Qed.

(** Where the subtotal pattern matches, the total pattern matches too:
    from the word "Total" inside "Sub Total". *)
Lemma subtotal_implies_total (text : string) :
  Re.search true subtotal_regex text <> None ->
  Re.search true amount_regex text <> None.
Proof.
  destruct (Re.search true subtotal_regex text) as [m|] eqn:E; [intros _ | congruence].
  destruct (search_position _ _ _ _ E) as (pre & s & -> & Hm). clear E.
  unfold Re.match_at in Hm.
  change subtotal_regex with
    (Re.Cat ([Re.Str "Sub"; Re.Star Re.Space]
             ++ [Re.Str "Total"; Re.Star Re.Space; Re.Chr (Re.Lit ":");
                 Re.Star Re.Space; Re.Group amount_digits])) in Hm.
  rewrite run_Cat_app in Hm.
  destruct (run_sound _ _ _ _ _ _ Hm) as (w & s1 & cap1 & -> & _ & Hk). clear Hm.
  rewrite <- append_assoc. apply search_complete.
  unfold Re.match_at, amount_regex.
  eapply run_mono; [|rewrite Hk; discriminate].
  intros; discriminate.
Qed.

(** X8: the calculation check reports "Total amount not found" exactly when
    the total pattern matches nowhere, which never happens for a text where
    the subtotal pattern matches; and it reports a mismatch only when total,
    subtotal and tax patterns all match, so a missing subtotal or tax line
    is never reported. *)
Theorem X8_calculation_check_outcomes (text : string) :
  (check_calculations text = (false, "Total amount not found")
   <-> Re.search true amount_regex text = None)
  /\ (Re.search true subtotal_regex text <> None ->
      check_calculations text <> (false, "Total amount not found"))
  /\ (forall msg, check_calculations text = (false, msg) ->
        msg <> "Total amount not found" ->
        Re.search true amount_regex text <> None
        /\ Re.search true subtotal_regex text <> None
        /\ Re.search true tax_regex text <> None).
Proof.
  assert (check_calculations text = (false, "Total amount not found")
          <-> Re.search true amount_regex text = None) as A.
  { unfold check_calculations.
    destruct (Re.search true amount_regex text); [|tauto].
    split; [|discriminate].
    destruct (Re.search true subtotal_regex text); [|discriminate].
    destruct (Re.search true tax_regex text); [|discriminate].
    destruct (negb _); discriminate. }
  split; [exact A|]. split.
  - intros Hs Hc. apply A in Hc. now apply (subtotal_implies_total text).
  - intros msg Hc Hmsg. unfold check_calculations in Hc.
    destruct (Re.search true amount_regex text); [|congruence].
    destruct (Re.search true subtotal_regex text); [|discriminate].
    destruct (Re.search true tax_regex text); [|discriminate].
    repeat split; discriminate.
Qed.

(* ================================================================ *)
(** ** Further properties: texts without digits *)

Lemma rep_first {R : Type} (ic : bool) (a : Re.cset) (lo : nat) (hi : option nat)
    (s : string) (k : string -> option R) (x : R) :
  Re.rep ic a (S lo) hi s k = Some x ->
  exists c s', s = String c s' /\ Re.accepts ic a c = true.
Proof.
  destruct s as [|c s]; simpl; [discriminate|].
  destruct (Re.accepts ic a c) eqn:Hc; simpl; [|discriminate].
  intros _. exists c, s. split; [reflexivity | exact Hc].
Qed.

Lemma all_chars_middle (p : ascii -> bool) (a b : string) (c : ascii) :
  PyStr.all_chars p (a ++ String c b) = true -> p c = true.
Proof.
  rewrite all_chars_app. simpl. rewrite !andb_true_iff. tauto.
Qed.

Lemma upper_keeps_digits (c : ascii) :
  Re.is_digit (PyStr.upper_ascii c) = Re.is_digit c.
Proof.
  destruct c as [[] [] [] [] [] [] [] []]; reflexivity.
Qed.

Lemma upper_without_digits (s : string) :
  PyStr.all_chars (fun c => negb (Re.is_digit c)) s = true ->
  PyStr.all_chars (fun c => negb (Re.is_digit c)) (PyStr.upper s) = true.
Proof.
  induction s as [|c s IH]; simpl; [reflexivity|].
  rewrite upper_keeps_digits, !andb_true_iff. intros [Hc Hs]. auto.
Qed.

Lemma gstin_match_starts_with_digit (s : string) (m : Re.Match) :
  Re.match_at false gstin_regex s = Some m ->
  exists c s', s = String c s' /\ Re.is_digit c = true.
Proof.
  unfold Re.match_at, gstin_regex. cbn [Re.Cat Re.run Re.Times]. intros H.
  destruct (rep_first _ _ _ _ _ _ _ H) as (c & s' & Hs & Hc).
  exists c, s'. split; [assumption|].
  cbn [Re.accepts andb] in Hc. now rewrite orb_false_r in Hc.
Qed.

Lemma amount_match_has_digit (s : string) (m : Re.Match) :
  Re.match_at true amount_regex s = Some m ->
  exists w c s', s = w ++ String c s' /\ Re.is_digit c = true.
Proof.
  unfold Re.match_at. intros Hm.
  change amount_regex with
    (Re.Cat ([Re.Str "Total"; Re.Star Re.Space; Re.Chr (Re.Lit ":"); Re.Star Re.Space]
             ++ [Re.Group amount_digits])) in Hm.
  rewrite run_Cat_app in Hm.
  destruct (run_sound _ _ _ _ _ _ Hm) as (w & s1 & cap1 & Hs & _ & Hk). clear Hm.
  unfold amount_digits in Hk. cbn [Re.Cat Re.run Re.Plus] in Hk.
  destruct (rep_first _ _ _ _ _ _ _ Hk) as (c & s' & Hs1 & Hc).
  exists w, c, s'. subst s1. auto.
Qed.

Lemma no_gstin_without_digits (text : string) :
  PyStr.all_chars (fun c => negb (Re.is_digit c)) text = true ->
  extract_gstin text = None.
Proof.
  intros H. apply upper_without_digits in H.
  unfold extract_gstin, Re.findall.
  destruct (Re.findall_from false gstin_regex 0 (PyStr.upper text)) as [|g gs] eqn:E;
    [reflexivity|].
  destruct (findall_from_position false gstin_regex (PyStr.upper text) 0 g)
    as (pre & s' & m & Hs & Hm & _).
  { rewrite E. left; reflexivity. }
  destruct (gstin_match_starts_with_digit _ _ Hm) as (c & s'' & -> & Hc).
  rewrite Hs in H. apply all_chars_middle in H. rewrite Hc in H. discriminate.
Qed.

Lemma no_rate_without_digits (text : string) :
  PyStr.all_chars (fun c => negb (Re.is_digit c)) text = true ->
  extract_gst_rate text = None.
Proof.
  intros H. destruct (extract_gst_rate text) as [rate|] eqn:E; [|reflexivity].
  unfold extract_gst_rate in E.
  destruct (Re.search true rate_regex text) as [m|] eqn:Es; [|discriminate].
  destruct (search_position _ _ _ _ Es) as (pre & s & Hs & Hm).
  destruct (rate_match_shape _ _ Hm) as (w0 & r & post & Hs' & _ & Hall & Hlen).
  destruct r as [|c r]; [simpl in Hlen; lia|].
  simpl in Hall. apply andb_true_iff in Hall. destruct Hall as [Hc _].
  rewrite Hs, Hs', <- append_assoc in H. simpl in H.
  apply all_chars_middle in H. rewrite Hc in H. discriminate.
Qed.

Lemma no_total_without_digits (text : string) :
  PyStr.all_chars (fun c => negb (Re.is_digit c)) text = true ->
  Re.search true amount_regex text = None.
Proof.
  intros H. destruct (Re.search true amount_regex text) as [m|] eqn:Es; [|reflexivity].
  destruct (search_position _ _ _ _ Es) as (pre & s & Hs & Hm).
  destruct (amount_match_has_digit _ _ Hm) as (w & c & s' & Hs' & Hc).
  rewrite Hs, Hs', <- append_assoc in H.
  apply all_chars_middle in H. rewrite Hc in H. discriminate.
Qed.

(** X9: a text without any decimal digit (such as the white space an OCR
    returns for a blank page) has no GSTIN, no GST rate and no total; when
    it is not empty, its anomaly list is the duplicate entry if a stored
    record has its hash, followed by "GSTIN not found in document", "GST
    rate not specified" and "Total amount not found". *)
Theorem X9_text_without_digits
    (docs : list Doc.t) (f : Upload.t) (ft : string)
    (anomalies : list Anomaly) (text : string) :
  process_document docs f ft = (anomalies, text) ->
  PyStr.all_chars (fun c => negb (Re.is_digit c)) text = true ->
  extract_gstin text = None
  /\ extract_gst_rate text = None
  /\ check_calculations text = (false, "Total amount not found")
  /\ (text <> "" ->
      anomalies = (rule_duplicate docs text
                     ++ [high_no_gstin; low_no_rate;
                         ("High", "Total amount not found")])%list).
Proof.
  intros E H.
  pose proof (no_gstin_without_digits _ H) as G.
  pose proof (no_rate_without_digits _ H) as R.
  assert (check_calculations text = (false, "Total amount not found")) as C
    by (unfold check_calculations;
        rewrite (no_total_without_digits _ H); reflexivity).
  repeat split; auto.
  intros HT. rewrite process_document_rules in E.
  destruct (PyStr.truthy _) eqn:T; injection E as <- <-;
    [|apply truthy_iff in HT; congruence].
  unfold rule_gstin, rule_gst_rate, rule_calculation.
  rewrite G, R, C. reflexivity.
Qed.

(* ================================================================ *)
(** ** Further properties: extraction *)

Lemma concat_pages_acc (pages : list (outcome string)) :
  forall text,
    concat_pages text pages
    = (text ++ fst (concat_pages "" pages), snd (concat_pages "" pages)).
Proof.
  induction pages as [|[t|] pages IH]; intros text; simpl.
  - now rewrite append_nil_r.
  - rewrite (IH (text ++ t)), (IH t), append_assoc. reflexivity.
  - now rewrite append_nil_r.
Qed.

Lemma concat_pages_all (ts : list string) :
  concat_pages "" (map Returns ts) = (join ts, false).
Proof.
  induction ts as [|t ts IH]; simpl; [reflexivity|].
  rewrite concat_pages_acc, IH. reflexivity.
Qed.

Lemma concat_pages_until (ts : list string) (more : list (outcome string)) :
  concat_pages "" (map Returns ts ++ Raises :: more)%list = (join ts, true).
Proof.
  induction ts as [|t ts IH]; simpl; [reflexivity|].
  rewrite concat_pages_acc, IH. reflexivity.
Qed.

Lemma text_or_empty_returns (pages : list (option string)) :
  map text_or_empty (map Returns pages) = map Returns (map page_text pages).
Proof.
  induction pages as [|[t|] pages IH]; simpl; now rewrite ?IH.
Qed.

(** X10: the text extracted from a PDF. When every page of the text layer
    is read, the result is the page texts in order (nothing for a page
    without text) and OCR is not used. When reading the text layer raises
    after some pages, the text of those pages is kept and the OCR text of
    the whole document is appended to it; if OCR cannot open the document,
    the text read so far is returned. *)
Theorem X10_pdf_text_layer_then_ocr (f : Upload.t) :
  (forall pages,
     pdfplumber_open f = Returns (map Returns pages) ->
     extract_text_from_pdf f = join (map page_text pages))
  /\ (forall good more ocr,
        pdfplumber_open f = Returns (map Returns good ++ Raises :: more)%list ->
        fitz_ocr_pages f = Returns (map Returns ocr) ->
        extract_text_from_pdf f = join (map page_text good) ++ join ocr)
  /\ (forall good more,
        pdfplumber_open f = Returns (map Returns good ++ Raises :: more)%list ->
        fitz_ocr_pages f = Raises ->
        extract_text_from_pdf f = join (map page_text good))
  /\ (forall ocr,
        pdfplumber_open f = Raises ->
        fitz_ocr_pages f = Returns (map Returns ocr) ->
        extract_text_from_pdf f = join ocr).
Proof.
  unfold extract_text_from_pdf. repeat split.
  - intros pages ->. now rewrite text_or_empty_returns, concat_pages_all.
  - intros good more ocr -> ->.
    rewrite map_app, text_or_empty_returns. cbn [map text_or_empty].
    rewrite concat_pages_until, concat_pages_acc, concat_pages_all. reflexivity.
  - intros good more -> ->.
    rewrite map_app, text_or_empty_returns. cbn [map text_or_empty].
    rewrite concat_pages_until. reflexivity.
  - intros ocr -> ->. now rewrite concat_pages_all.
Qed.

Lemma has_sep_app (sep : ascii) (p t : string) :
  existsb (Ascii.eqb sep) (list_ascii_of_string (p ++ String sep t)) = true.
Proof.
  induction p as [|c p IH]; simpl.
  - now rewrite Ascii.eqb_refl.
  - rewrite IH. apply orb_true_r.
Qed.

Lemma split_last_after (sep : ascii) (p t : string) :
  existsb (Ascii.eqb sep) (list_ascii_of_string t) = false ->
  PyStr.split_last sep (p ++ String sep t) = t.
Proof.
  intros H. induction p as [|c p IH]; simpl.
  - now rewrite H, Ascii.eqb_refl.
  - now rewrite has_sep_app.
Qed.

Lemma split_last_whole (sep : ascii) (t : string) :
  existsb (Ascii.eqb sep) (list_ascii_of_string t) = false ->
  PyStr.split_last sep t = t.
Proof.
  destruct t as [|c t]; simpl; [reflexivity|].
  rewrite orb_false_iff. intros [Hc ->].
  rewrite Ascii.eqb_sym, Hc. reflexivity.
Qed.

Lemma no_sep_of_all_chars (sep : ascii) (t : string) :
  PyStr.all_chars (fun c => negb (Ascii.eqb sep c)) t = true ->
  existsb (Ascii.eqb sep) (list_ascii_of_string t) = false.
Proof.
  induction t as [|c t IH]; simpl; [reflexivity|].
  rewrite andb_true_iff, negb_true_iff. intros [-> Ht]. now rewrite IH.
Qed.

(** X11: which extractor an upload goes to. The part of the MIME type after
    its last slash decides: "pdf" (as in "application/pdf") sends the file
    to the PDF extractor, anything else (as in "image/png") to the OCR of
    images; the comparison is on the exact lower-case word. *)
Theorem X11_file_type_dispatch (f : Upload.t) :
  (forall major, Upload.type f = major ++ "/pdf" ->
                 extracted_text f = extract_text_from_pdf f)
  /\ (Upload.type f = "pdf" -> extracted_text f = extract_text_from_pdf f)
  /\ (forall major minor,
        Upload.type f = major ++ "/" ++ minor ->
        PyStr.all_chars (fun c => negb (Ascii.eqb "/" c)) minor = true ->
        minor <> "pdf" ->
        extracted_text f = extract_text_from_image f)
  /\ (PyStr.all_chars (fun c => negb (Ascii.eqb "/" c)) (Upload.type f) = true ->
      Upload.type f <> "pdf" ->
      extracted_text f = extract_text_from_image f).
Proof.
  unfold extracted_text. repeat split.
  - intros major ->.
    change (major ++ "/pdf") with (major ++ String "/" "pdf").
    rewrite split_last_after; reflexivity.
  - intros ->. reflexivity.
  - intros major minor -> Hm Hn.
    change (major ++ "/" ++ minor) with (major ++ String "/" minor).
    rewrite split_last_after by now apply no_sep_of_all_chars.
    apply String.eqb_neq in Hn. now rewrite Hn.
  - intros Hm Hn.
    rewrite split_last_whole by now apply no_sep_of_all_chars.
    apply String.eqb_neq in Hn. now rewrite Hn.
Qed.

(* ================================================================ *)
(** ** Further properties: a document without anomalies *)

Lemma rule_duplicate_nil (docs : list Doc.t) (text : string) :
  rule_duplicate docs text = []
  <-> (forall d, In d docs -> Doc.hash d <> calculate_hash text).
Proof.
  destruct (rule_duplicate_cases docs text) as [[E H]|[E (d & Hin & Hd)]];
    rewrite E; split; auto.
  - discriminate.
  - intros H. destruct (H d Hin Hd).
Qed.

Lemma rule_gstin_nil (text : string) :
  rule_gstin text = [] <-> exists g, extract_gstin text = Some g.
Proof.
  destruct (rule_gstin_cases text) as [[E H]|[E H]]; rewrite E; split; auto.
  - discriminate.
  - intros (g & Hg). congruence.
Qed.

Lemma rule_gst_rate_nil (text : string) :
  rule_gst_rate text = []
  <-> exists rate, extract_gst_rate text = Some rate /\ In rate standard_rates.
Proof.
  destruct (rule_gst_rate_cases text)
    as [[E H]|[(r & H & Hin & E)|(r & H & Hin & E)]]; rewrite E; split.
  - discriminate.
  - intros (rate & Hr & _). congruence.
  - intros _. eauto.
  - reflexivity.
  - discriminate.
  - intros (rate & Hr & Hs). assert (rate = r) as -> by congruence. contradiction.
Qed.

Lemma rule_calculation_nil (text : string) :
  rule_calculation text = [] <-> fst (check_calculations text) = true.
Proof.
  unfold rule_calculation.
  destruct (fst (check_calculations text)); split; auto; discriminate.
Qed.

(** X12: a document is shown with "No anomalies detected" exactly when its
    extracted text is not empty, no stored record has the hash of the text,
    a GSTIN is found, the first GST rate found is one of 0, 5, 12, 18, 28,
    and the calculation check passes. *)
Theorem X12_document_without_anomalies
    (docs : list Doc.t) (f : Upload.t) (ft : string)
    (anomalies : list Anomaly) (text : string) :
  process_document docs f ft = (anomalies, text) ->
  (anomalies = []
   <-> text <> ""
       /\ (forall d, In d docs -> Doc.hash d <> calculate_hash text)
       /\ (exists g, extract_gstin text = Some g)
       /\ (exists rate, extract_gst_rate text = Some rate /\ In rate standard_rates)
       /\ fst (check_calculations text) = true).
Proof.
  rewrite process_document_rules.
  destruct (PyStr.truthy _) eqn:T; intros [= <- <-].
  - rewrite <- rule_duplicate_nil, <- rule_gstin_nil, <- rule_gst_rate_nil,
      <- rule_calculation_nil.
    apply truthy_iff in T. split.
    + intros H. apply app_eq_nil in H. destruct H as [H1 H].
      apply app_eq_nil in H. destruct H as [H2 H].
      apply app_eq_nil in H. destruct H as [H3 H4]. auto.
    + intros (_ & -> & -> & -> & ->). reflexivity.
  - split; [discriminate|].
    intros (H & _). apply truthy_iff in H. congruence.
Qed.

(* ================================================================ *)
(** ** Further properties: the shape of a hash *)

Lemma hex_length (bytes : list Z) :
  String.length (MD5.hex bytes) = (2 * List.length bytes)%nat.
Proof.
  induction bytes as [|b bs IH]; cbn [MD5.hex String.length List.length];
    [reflexivity | rewrite IH; lia].
Qed.

Lemma le_bytes_length (n : nat) : forall x, List.length (MD5.le_bytes n x) = n.
Proof.
  induction n as [|n IH]; intros x; cbn [MD5.le_bytes List.length];
    [reflexivity | now rewrite IH].
Qed.

Lemma le_bytes_range (n : nat) :
  forall x, Forall (fun b => (0 <= b < 256)%Z) (MD5.le_bytes n x).
Proof.
  induction n as [|n IH]; intros x; cbn [MD5.le_bytes]; constructor.
  - apply Z.mod_pos_bound. lia.
  - apply IH.
Qed.

Lemma hex_digit_lower (d : Z) :
  (0 <= d < 16)%Z -> is_lower_hex (MD5.hex_digit d) = true.
Proof.
  intros H.
  assert (d = 0 \/ d = 1 \/ d = 2 \/ d = 3 \/ d = 4 \/ d = 5 \/ d = 6 \/ d = 7
          \/ d = 8 \/ d = 9 \/ d = 10 \/ d = 11 \/ d = 12 \/ d = 13 \/ d = 14
          \/ d = 15)%Z as C by lia.
  repeat (destruct C as [->|C]; [reflexivity|]). subst d. reflexivity.
Qed.

Lemma hex_lower (bytes : list Z) :
  Forall (fun b => (0 <= b < 256)%Z) bytes ->
  PyStr.all_chars is_lower_hex (MD5.hex bytes) = true.
Proof.
  induction 1 as [|b bs Hb _ IH]; cbn [MD5.hex PyStr.all_chars]; [reflexivity|].
  rewrite IH, !hex_digit_lower; [reflexivity | |].
  - apply Z.mod_pos_bound. lia.
  - split; [apply Z.div_pos; lia | apply Z.div_lt_upper_bound; lia].
Qed.

Lemma calculate_hash_shape (content : string) :
  String.length (calculate_hash content) = 32%nat
  /\ PyStr.all_chars is_lower_hex (calculate_hash content) = true.
Proof.
  unfold calculate_hash, MD5.hexdigest, MD5.digest.
  destruct (fold_left MD5.process_chunk _ MD5.init) as [[[a b] c] d].
  split.
  - rewrite hex_length, !length_app, !le_bytes_length. reflexivity.
  - apply hex_lower. repeat (apply Forall_app; split); apply le_bytes_range.
Qed.

(** X13: the hash of any text is 32 characters, each a decimal digit or a
    letter from a to f; so is the hash of every record of every session. *)
Theorem X13_hash_is_32_hex_characters :
  (forall content,
     String.length (calculate_hash content) = 32%nat
     /\ PyStr.all_chars is_lower_hex (calculate_hash content) = true)
  /\ (forall interactions d,
        In d (session interactions) ->
        String.length (Doc.hash d) = 32%nat
        /\ PyStr.all_chars is_lower_hex (Doc.hash d) = true).
Proof.
  split; [exact calculate_hash_shape|].
  intros interactions. apply session_invariant. intros docs up.
  rewrite document_record_hash. apply calculate_hash_shape.
Qed.

End Detector.

(* ================================================================== *)
(** ** The program on concrete documents *)

Example md5_empty : calculate_hash "" = "d41d8cd98f00b204e9800998ecf8427e".
Proof. vm_compute. reflexivity. Qed.

Example md5_abc : calculate_hash "abc" = "900150983cd24fb0d6963f7d28e17f72".
Proof. vm_compute. reflexivity. Qed.

Example md5_two_blocks :
  calculate_hash "aaaaaaaaaaaaaaaaaaaaaaaaaaaaaaaaaaaaaaaaaaaaaaaaaaaaaaaa"
  = "3b0c8ac703f828b04c6c197006d17218".
Proof. vm_compute. reflexivity. Qed.

Example gstin_found : extract_gstin "gstin 27aaapl1234c1z5." = Some "27AAAPL1234C1Z5".
Proof. vm_compute. reflexivity. Qed.

Example rate_18 : extract_gst_rate "GST @18%" = Some "18".
Proof. vm_compute. reflexivity. Qed.

Example rate_15_flagged :
  rule_gst_rate "GST @15%" = [("Medium", "Non-standard GST rate: 15%")].
Proof. vm_compute. reflexivity. Qed.

Example rate_leading_zero_flagged :
  rule_gst_rate "gst 018%" = [("Medium", "Non-standard GST rate: 018%")].
Proof. vm_compute. reflexivity. Qed.

Example total_120_mismatch :
  check_calculations
    ("Total : 120.00" ++ nl ++ "Sub Total : 100.00" ++ nl ++ "GST : 18.00")
  = (false, "Calculation mismatch: 100.0 + 18.0 ≠ 120.0").
Proof. vm_compute. reflexivity. Qed.

Example hello_record_stored :
  session text_layer no_ocr_pages no_ocr_image
    [ProcessDocuments [(pdf_of "first.pdf" "hello", 1%Z)]]
  = [hello_record].
Proof. vm_compute. reflexivity. Qed.

(** C1, as stated, fails on an empty extraction: for a PDF whose text layer
    is empty the list is the single Critical entry, and holds none of the
    entries the GSTIN, GST rate and calculation rules contribute for the
    empty text. *)
Lemma C1_counterexample_empty_text :
  process_document text_layer no_ocr_pages no_ocr_image []
    (pdf_of "blank.pdf" "") "pdf"
  = ([critical_no_text], "")
  /\ rule_gstin "" = [high_no_gstin]
  /\ rule_gst_rate "" = [low_no_rate]
  /\ rule_calculation "" = [("High", "Total amount not found")]
  /\ ~ (forall a,
          In a (rule_duplicate [] "" ++ rule_gstin "" ++ rule_gst_rate ""
                  ++ rule_calculation "")%list ->
          In a (fst (process_document text_layer no_ocr_pages no_ocr_image []
                       (pdf_of "blank.pdf" "") "pdf"))).
Proof.
  repeat split; try (vm_compute; reflexivity).
  intros H. specialize (H high_no_gstin).
  assert (In high_no_gstin [critical_no_text]) as [X|[]].
  { apply H. vm_compute. left. reflexivity. }
  discriminate X.
Qed.

Lemma C1_witness :
  process_document text_layer no_ocr_pages no_ocr_image [hello_record]
    (pdf_of "again.pdf" "hello") "pdf"
  = ([high_duplicate; high_no_gstin; low_no_rate; ("High", "Total amount not found")],
     "hello")
  /\ "hello" <> ""
  /\ [high_duplicate; high_no_gstin; low_no_rate; ("High", "Total amount not found")]
     = (rule_duplicate [hello_record] "hello" ++ rule_gstin "hello"
          ++ rule_gst_rate "hello" ++ rule_calculation "hello")%list.
Proof.
  assert (process_document text_layer no_ocr_pages no_ocr_image [hello_record]
            (pdf_of "again.pdf" "hello") "pdf"
          = ([high_duplicate; high_no_gstin; low_no_rate;
              ("High", "Total amount not found")], "hello")) as E
    by (vm_compute; reflexivity).
  split; [exact E|]. split; [discriminate|].
  apply (proj1 (C1_rules_run_on_nonempty_text text_layer no_ocr_pages no_ocr_image
                  _ _ _ _ _ E)).
  discriminate.
Defined.

(** C2: on the three lines of the specification's example, in its order,
    the pattern for the total finds "Total : 100.00" inside the line
    "Sub Total : 100.00", so the program compares 100.00 + 18.00 with 100.00
    and reports a mismatch; with the total line first the check passes. *)
Theorem C2_total_read_from_subtotal_line :
  option_map Re.group1 (Re.search true amount_regex invoice_lines) = Some (Some "100.00")
  /\ check_calculations invoice_lines
     = (false, "Calculation mismatch: 100.0 + 18.0 ≠ 100.0")
  /\ In ("High", "Calculation mismatch: 100.0 + 18.0 ≠ 100.0")
        (fst (process_document text_layer no_ocr_pages no_ocr_image []
                (pdf_of "invoice.pdf" invoice_lines) "pdf"))
  /\ check_calculations invoice_lines_total_first = (true, "Calculations OK").
Proof.
  repeat split; try (vm_compute; reflexivity).
  vm_compute. right. right. left. reflexivity.
Qed.

(** C3: on a text with the 14-character near-miss and no 15-character
    match, the extraction returns nothing and the program reports "GSTIN not
    found in document"; the entry "Invalid GSTIN format: 27AAAPL1234C1Z" is
    not produced. *)
Theorem C3_near_miss_reported_as_not_found :
  extract_gstin near_miss_text = None
  /\ fst (process_document text_layer no_ocr_pages no_ocr_image []
            (pdf_of "scan.pdf" near_miss_text) "pdf")
     = [high_no_gstin; low_no_rate; ("High", "Total amount not found")]
  /\ ~ In (high_invalid_gstin "27AAAPL1234C1Z")
          (fst (process_document text_layer no_ocr_pages no_ocr_image []
                  (pdf_of "scan.pdf" near_miss_text) "pdf")).
Proof.
  split; [vm_compute; reflexivity|]. split; [vm_compute; reflexivity|].
  intros H. vm_compute in H.
  destruct H as [H|[H|[H|[]]]]; discriminate H.
Qed.


Lemma C5_witness :
  broken_pdf (pdf_of "torn.pdf" "%PDF") = Raises
  /\ no_ocr_pages (pdf_of "torn.pdf" "%PDF") = Raises
  /\ extract_text_from_pdf broken_pdf no_ocr_pages (pdf_of "torn.pdf" "%PDF") = ""
  /\ no_ocr_image (Upload.mk "torn.png" "image/png" "PNG") = Raises
  /\ extract_text_from_image no_ocr_image (Upload.mk "torn.png" "image/png" "PNG") = ""
  /\ extracted_text broken_pdf no_ocr_pages no_ocr_image (pdf_of "torn.pdf" "%PDF") = ""
  /\ process_documents broken_pdf no_ocr_pages no_ocr_image []
       [(pdf_of "torn.pdf" "%PDF", 7%Z); (pdf_of "next.pdf" "%PDF", 8%Z)]
     = process_documents broken_pdf no_ocr_pages no_ocr_image
         ([] ++ [Doc.mk "torn.pdf" (calculate_hash "") "" [critical_no_text] 7%Z])
         [(pdf_of "next.pdf" "%PDF", 8%Z)]
  /\ List.length
       (process_documents broken_pdf no_ocr_pages no_ocr_image []
          [(pdf_of "torn.pdf" "%PDF", 7%Z); (pdf_of "next.pdf" "%PDF", 8%Z)])
     = (List.length (@nil Doc.t) + 1 + List.length [(pdf_of "next.pdf" "%PDF", 8%Z)])%nat.
Proof.
  split; [reflexivity|]. split; [reflexivity|].
  split.
  { apply (proj1 (C5_extraction_failure_is_recorded broken_pdf no_ocr_pages no_ocr_image));
      reflexivity. }
  split; [reflexivity|].
  split.
  { apply (proj1 (proj2 (C5_extraction_failure_is_recorded
                           broken_pdf no_ocr_pages no_ocr_image))).
    reflexivity. }
  split; [reflexivity|].
  apply (proj2 (proj2 (C5_extraction_failure_is_recorded broken_pdf no_ocr_pages no_ocr_image))
           [] (pdf_of "torn.pdf" "%PDF", 7%Z) [(pdf_of "next.pdf" "%PDF", 8%Z)]).
  reflexivity.
Defined.

Lemma C6_witness :
  In hello_record
     (session text_layer no_ocr_pages no_ocr_image
        [ProcessDocuments [(pdf_of "first.pdf" "hello", 1%Z)]])
  /\ Doc.hash hello_record = calculate_hash (Doc.text hello_record).
Proof.
  assert (In hello_record
            (session text_layer no_ocr_pages no_ocr_image
               [ProcessDocuments [(pdf_of "first.pdf" "hello", 1%Z)]])) as H
    by (vm_compute; left; reflexivity).
  split; [exact H|].
  exact (proj1 (proj2 (proj2 (C6_hash_is_function_of_text
                                text_layer no_ocr_pages no_ocr_image))) _ _ H).
Defined.

Lemma C7_witness :
  process_document text_layer no_ocr_pages no_ocr_image []
    (pdf_of "rate.pdf" "GST @15%") "pdf"
  = ([high_no_gstin; ("Medium", "Non-standard GST rate: 15%");
      ("High", "Total amount not found")], "GST @15%")
  /\ "GST @15%" <> ""
  /\ extract_gst_rate "GST @15%" = Some "15"
  /\ ~ In "15" standard_rates
  /\ filter is_rate_anomaly
       [high_no_gstin; ("Medium", "Non-standard GST rate: 15%");
        ("High", "Total amount not found")]
     = [("Medium", "Non-standard GST rate: " ++ "15" ++ "%")].
Proof.
  assert (process_document text_layer no_ocr_pages no_ocr_image []
            (pdf_of "rate.pdf" "GST @15%") "pdf"
          = ([high_no_gstin; ("Medium", "Non-standard GST rate: 15%");
              ("High", "Total amount not found")], "GST @15%")) as E
    by (vm_compute; reflexivity).
  assert ("GST @15%" <> "") as N by discriminate.
  assert (extract_gst_rate "GST @15%" = Some "15") as R by (vm_compute; reflexivity).
  assert (~ In "15" standard_rates) as S.
  { intros H. simpl in H. repeat (destruct H as [H|H]; [discriminate H|]). exact H. }
  repeat (split; [assumption|]).
  exact (proj1 (proj2 (C7_gst_rate_rule text_layer no_ocr_pages no_ocr_image
                         _ _ _ _ _ E N)) "15" R S).
Defined.

Lemma C8_witness :
  rerun text_layer no_ocr_pages no_ocr_image
    (rerun text_layer no_ocr_pages no_ocr_image [hello_record] ClearAllData)
    (ProcessDocuments [(pdf_of "a.pdf" "hello", 2%Z); (pdf_of "b.pdf" "hello", 3%Z)])
  = ([Doc.mk "a.pdf" "5d41402abc4b2a76b9719d911017c592" "hello"
        [high_no_gstin; low_no_rate; ("High", "Total amount not found")] 2%Z]
     ++ Doc.mk "b.pdf" "5d41402abc4b2a76b9719d911017c592" "hello"
          [high_duplicate; high_no_gstin; low_no_rate;
           ("High", "Total amount not found")] 3%Z
     :: [])%list
  /\ In high_duplicate
        [high_duplicate; high_no_gstin; low_no_rate; ("High", "Total amount not found")]
  /\ exists d',
       In d' [Doc.mk "a.pdf" "5d41402abc4b2a76b9719d911017c592" "hello"
                [high_no_gstin; low_no_rate; ("High", "Total amount not found")] 2%Z]
       /\ Doc.hash d' = "5d41402abc4b2a76b9719d911017c592".
Proof.
  assert (rerun text_layer no_ocr_pages no_ocr_image
            (rerun text_layer no_ocr_pages no_ocr_image [hello_record] ClearAllData)
            (ProcessDocuments [(pdf_of "a.pdf" "hello", 2%Z); (pdf_of "b.pdf" "hello", 3%Z)])
          = ([Doc.mk "a.pdf" "5d41402abc4b2a76b9719d911017c592" "hello"
                [high_no_gstin; low_no_rate; ("High", "Total amount not found")] 2%Z]
             ++ Doc.mk "b.pdf" "5d41402abc4b2a76b9719d911017c592" "hello"
                  [high_duplicate; high_no_gstin; low_no_rate;
                   ("High", "Total amount not found")] 3%Z
             :: [])%list) as E
    by (vm_compute; reflexivity).
  assert (In high_duplicate
            [high_duplicate; high_no_gstin; low_no_rate;
             ("High", "Total amount not found")]) as D
    by (left; reflexivity).
  split; [exact E|]. split; [exact D|].
  exact (proj2 (proj2 (proj2 (C8_clear_forgets_earlier_documents
                                text_layer no_ocr_pages no_ocr_image
                                [hello_record] _))) _ _ _ E D).
Defined.

Lemma C9_witness :
  extract_gstin "gstin 27aaapl1234c1z5." = Some "27AAAPL1234C1Z5"
  /\ String.length "27AAAPL1234C1Z5" = 15%nat
  /\ In hello_record
        (session text_layer no_ocr_pages no_ocr_image
           [ProcessDocuments [(pdf_of "first.pdf" "hello", 1%Z)]])
  /\ ~ In ("High", "Invalid GSTIN format: " ++ "hello") (Doc.anomalies hello_record).
Proof.
  assert (extract_gstin "gstin 27aaapl1234c1z5." = Some "27AAAPL1234C1Z5") as E
    by (vm_compute; reflexivity).
  assert (In hello_record
            (session text_layer no_ocr_pages no_ocr_image
               [ProcessDocuments [(pdf_of "first.pdf" "hello", 1%Z)]])) as H
    by (vm_compute; left; reflexivity).
  split; [exact E|]. split.
  { exact (proj1 (C9_invalid_gstin_branch_unreachable
                    text_layer no_ocr_pages no_ocr_image) _ _ E). }
  split; [exact H|].
  exact (proj2 (proj2 (C9_invalid_gstin_branch_unreachable
                         text_layer no_ocr_pages no_ocr_image)) _ _ "High" "hello" H).
Defined.

Lemma C10_witness :
  extracted_text text_layer no_ocr_pages no_ocr_image (pdf_of "blank1.pdf" "") = ""
  /\ extracted_text text_layer no_ocr_pages no_ocr_image (pdf_of "blank2.pdf" "") = ""
  /\ exists r1 rmid r2,
       process_documents text_layer no_ocr_pages no_ocr_image []
         ((pdf_of "blank1.pdf" "", 1%Z)
            :: [(pdf_of "first.pdf" "hello", 2%Z)] ++ [(pdf_of "blank2.pdf" "", 3%Z)])
       = ([] ++ r1 :: rmid ++ [r2])%list
       /\ List.length rmid = List.length [(pdf_of "first.pdf" "hello", 2%Z)]
       /\ Doc.text r1 = "" /\ Doc.text r2 = ""
       /\ Doc.hash r1 = "d41d8cd98f00b204e9800998ecf8427e"
       /\ Doc.hash r2 = Doc.hash r1
       /\ Doc.anomalies r2 = [critical_no_text]
       /\ count high_duplicate (Doc.anomalies r2) = 0%nat.
Proof.
  split; [reflexivity|]. split; [reflexivity|].
  apply (C10_empty_text_never_duplicate text_layer no_ocr_pages no_ocr_image
           [] (pdf_of "blank1.pdf" "", 1%Z) (pdf_of "blank2.pdf" "", 3%Z)
           [(pdf_of "first.pdf" "hello", 2%Z)]); reflexivity.
Defined.

(* ================================================================== *)
(** ** The further properties on concrete documents *)

Lemma X1_witness :
  In hello_record
     (session text_layer no_ocr_pages no_ocr_image
        [ProcessDocuments [(pdf_of "first.pdf" "hello", 1%Z)]])
  /\ ((Doc.text hello_record = "" /\ Doc.anomalies hello_record = [critical_no_text])
      \/ (Doc.text hello_record <> ""
          /\ (List.length (Doc.anomalies hello_record) <= 4)%nat
          /\ Forall (fun a : Anomaly => In (fst a) ["High"; "Medium"; "Low"])
                    (Doc.anomalies hello_record))).
Proof.
  assert (In hello_record
            (session text_layer no_ocr_pages no_ocr_image
               [ProcessDocuments [(pdf_of "first.pdf" "hello", 1%Z)]])) as H
    by (vm_compute; left; reflexivity).
  split; [exact H|].
  exact (X1_stored_records_have_two_shapes text_layer no_ocr_pages no_ocr_image _ _ H).
Defined.

Lemma X5_witness :
  (String.length "hello" <= 1000)%nat
  /\ shown_text "hello" = "hello"
  /\ (1000 < String.length (times_string "ab" 501))%nat
  /\ shown_text (times_string "ab" 501)
     = PyStr.take 1000 (times_string "ab" 501) ++ "..."
  /\ String.length (shown_text (times_string "ab" 501)) = 1003%nat.
Proof.
  assert (String.length "hello" <= 1000)%nat as A by (simpl; lia).
  assert (1000 < String.length (times_string "ab" 501))%nat as B
    by (apply Nat.ltb_lt; vm_compute; reflexivity).
  split; [exact A|]. split.
  { exact (proj1 (proj2 (X5_shown_text_is_bounded "hello")) A). }
  split; [exact B|].
  exact (proj2 (proj2 (X5_shown_text_is_bounded (times_string "ab" 501))) B).
Defined.

Lemma X6_witness :
  extract_gstin "gstin 27aaapl1234c1z5." = Some "27AAAPL1234C1Z5"
  /\ (exists pre post,
        PyStr.upper "gstin 27aaapl1234c1z5." = pre ++ "27AAAPL1234C1Z5" ++ post)
  /\ String.length "27AAAPL1234C1Z5" = 15%nat
  /\ PyStr.all_chars is_upper_alnum "27AAAPL1234C1Z5" = true
  /\ PyStr.upper "27AAAPL1234C1Z5" = "27AAAPL1234C1Z5".
Proof.
  assert (extract_gstin "gstin 27aaapl1234c1z5." = Some "27AAAPL1234C1Z5") as E
    by (vm_compute; reflexivity).
  split; [exact E|].
  exact (proj1 (X6_gstin_is_piece_of_uppercased_text "gstin 27aaapl1234c1z5.") _ E).
Defined.

Lemma X7_witness :
  extract_gst_rate "Tax: GST @18% incl." = Some "18"
  /\ "18" <> ""
  /\ PyStr.all_chars Re.is_digit "18" = true
  /\ exists pre post, "Tax: GST @18% incl." = pre ++ "18" ++ "%" ++ post.
Proof.
  assert (extract_gst_rate "Tax: GST @18% incl." = Some "18") as E
    by (vm_compute; reflexivity).
  split; [exact E|].
  exact (X7_rate_is_digits_before_percent _ _ E).
Defined.

Lemma X8_witness :
  Re.search true subtotal_regex invoice_lines <> None
  /\ check_calculations invoice_lines <> (false, "Total amount not found")
  /\ check_calculations invoice_lines
     = (false, "Calculation mismatch: 100.0 + 18.0 ≠ 100.0")
  /\ "Calculation mismatch: 100.0 + 18.0 ≠ 100.0" <> "Total amount not found"
  /\ Re.search true amount_regex invoice_lines <> None
  /\ Re.search true subtotal_regex invoice_lines <> None
  /\ Re.search true tax_regex invoice_lines <> None.
Proof.
  assert (Re.search true subtotal_regex invoice_lines <> None) as S
    by (vm_compute; discriminate).
  assert (check_calculations invoice_lines
          = (false, "Calculation mismatch: 100.0 + 18.0 ≠ 100.0")) as C
    by (vm_compute; reflexivity).
  assert ("Calculation mismatch: 100.0 + 18.0 ≠ 100.0" <> "Total amount not found") as N
    by discriminate.
  split; [exact S|]. split.
  { exact (proj1 (proj2 (X8_calculation_check_outcomes invoice_lines)) S). }
  split; [exact C|]. split; [exact N|].
  exact (proj2 (proj2 (X8_calculation_check_outcomes invoice_lines)) _ C N).
Defined.

Lemma X9_witness :
  process_document text_layer no_ocr_pages no_ocr_image []
    (pdf_of "blank.pdf" nl) "pdf"
  = ([high_no_gstin; low_no_rate; ("High", "Total amount not found")], nl)
  /\ PyStr.all_chars (fun c => negb (Re.is_digit c)) nl = true
  /\ nl <> ""
  /\ [high_no_gstin; low_no_rate; ("High", "Total amount not found")]
     = (rule_duplicate [] nl
          ++ [high_no_gstin; low_no_rate; ("High", "Total amount not found")])%list.
Proof.
  assert (process_document text_layer no_ocr_pages no_ocr_image []
            (pdf_of "blank.pdf" nl) "pdf"
          = ([high_no_gstin; low_no_rate; ("High", "Total amount not found")], nl)) as E
    by (vm_compute; reflexivity).
  assert (PyStr.all_chars (fun c => negb (Re.is_digit c)) nl = true) as D
    by (vm_compute; reflexivity).
  assert (nl <> "") as N by discriminate.
  split; [exact E|]. split; [exact D|]. split; [exact N|].
  exact (proj2 (proj2 (proj2 (X9_text_without_digits text_layer no_ocr_pages no_ocr_image
                                _ _ _ _ _ E D))) N).
Defined.

Lemma X10_witness :
  half_read (pdf_of "scan.pdf" "scanned text")
  = Returns (map Returns [Some "page one "] ++ Raises :: [Returns (Some "page three")])%list
  /\ ocr_reads (pdf_of "scan.pdf" "scanned text") = Returns (map Returns ["scanned text"])
  /\ extract_text_from_pdf half_read ocr_reads (pdf_of "scan.pdf" "scanned text")
     = join (map page_text [Some "page one "]) ++ join ["scanned text"]
  /\ text_layer (pdf_of "a.pdf" "hello") = Returns (map Returns [Some "hello"])
  /\ extract_text_from_pdf text_layer ocr_reads (pdf_of "a.pdf" "hello")
     = join (map page_text [Some "hello"]).
Proof.
  split; [reflexivity|]. split; [reflexivity|]. split.
  { apply (proj1 (proj2 (X10_pdf_text_layer_then_ocr half_read ocr_reads
                           (pdf_of "scan.pdf" "scanned text")))
             [Some "page one "] [Returns (Some "page three")] ["scanned text"]);
      reflexivity. }
  split; [reflexivity|].
  apply (proj1 (X10_pdf_text_layer_then_ocr text_layer ocr_reads (pdf_of "a.pdf" "hello"))
           [Some "hello"]).
  reflexivity.
Defined.

Lemma X11_witness :
  Upload.type (pdf_of "a.pdf" "hello") = "application" ++ "/pdf"
  /\ extracted_text text_layer no_ocr_pages no_ocr_image (pdf_of "a.pdf" "hello")
     = extract_text_from_pdf text_layer no_ocr_pages (pdf_of "a.pdf" "hello")
  /\ Upload.type (png_of "a.png" "hello") = "image" ++ "/" ++ "png"
  /\ PyStr.all_chars (fun c => negb (Ascii.eqb "/" c)) "png" = true
  /\ "png" <> "pdf"
  /\ extracted_text text_layer no_ocr_pages no_ocr_image (png_of "a.png" "hello")
     = extract_text_from_image no_ocr_image (png_of "a.png" "hello").
Proof.
  split; [reflexivity|]. split.
  { apply (proj1 (X11_file_type_dispatch text_layer no_ocr_pages no_ocr_image
                    (pdf_of "a.pdf" "hello")) "application").
    reflexivity. }
  split; [reflexivity|]. split; [reflexivity|]. split; [discriminate|].
  apply (proj1 (proj2 (proj2 (X11_file_type_dispatch text_layer no_ocr_pages no_ocr_image
                                (png_of "a.png" "hello")))) "image" "png").
  - reflexivity.
  - reflexivity.
  - discriminate.
Defined.

Lemma X12_witness :
  process_document text_layer no_ocr_pages no_ocr_image [hello_record]
    (pdf_of "invoice.pdf" clean_invoice) "pdf"
  = ([], clean_invoice)
  /\ clean_invoice <> ""
  /\ (forall d, In d [hello_record] -> Doc.hash d <> calculate_hash clean_invoice)
  /\ (exists g, extract_gstin clean_invoice = Some g)
  /\ (exists rate, extract_gst_rate clean_invoice = Some rate /\ In rate standard_rates)
  /\ fst (check_calculations clean_invoice) = true.
Proof.
  assert (process_document text_layer no_ocr_pages no_ocr_image [hello_record]
            (pdf_of "invoice.pdf" clean_invoice) "pdf"
          = ([], clean_invoice)) as E
    by (vm_compute; reflexivity).
  split; [exact E|].
  exact (proj1 (X12_document_without_anomalies text_layer no_ocr_pages no_ocr_image
                  _ _ _ _ _ E) eq_refl).
Defined.

Lemma X13_witness :
  In hello_record
     (session text_layer no_ocr_pages no_ocr_image
        [ProcessDocuments [(pdf_of "first.pdf" "hello", 1%Z)]])
  /\ String.length (Doc.hash hello_record) = 32%nat
  /\ PyStr.all_chars is_lower_hex (Doc.hash hello_record) = true.
Proof.
  assert (In hello_record
            (session text_layer no_ocr_pages no_ocr_image
               [ProcessDocuments [(pdf_of "first.pdf" "hello", 1%Z)]])) as H
    by (vm_compute; left; reflexivity).
  split; [exact H|].
  exact (proj2 (X13_hash_is_32_hex_characters text_layer no_ocr_pages no_ocr_image) _ _ H).
Defined.
